(** * BlockCraft Adventure: the main game controller (src/main.js)

    A shallow embedding of the [BlockCraftAdventure] class.  The object's
    fields are the first sixteen fields of [Game]; the remaining four are
    the part of the browser the controller talks to: the calls made on the
    collaborators ([trace], newest first), an allocation counter that gives
    every [new] a fresh identity, the callbacks the page still owes the
    controller ([tasks]) and whether the window listeners are registered.

    Methods are computations in a state-and-exception monad: a JavaScript
    [throw] keeps the assignments made before it, so the state is returned
    on both outcomes.  An [async] method is split at its [await]: the part
    before it schedules a task, the part after it is a second method that
    the page runs when the promise settles.

    Everything the environment decides during one run of a handler is read
    from a [Host] record: the clock readings, whether a constructor throws,
    the spawn points, the [showFPS] setting, the snapshots returned by
    [save()].  Modelling choices:
    - timestamps are integers, in milliseconds, and every reading of a
      clock during one run of a handler returns the same value;
    - the collaborators may fail where they are constructed and where
      their promises are awaited; their other methods, and the lookups in
      the document, return normally;
    - [console] output and the progress animation of the loading screen
      are left out. *)

From Stdlib Require Import ZArith QArith List String Bool Arith Lia.
Import ListNotations.
Close Scope Q_scope.

(** ** Data model *)

(** [GameState] (main.js, lines 7-13). *)
Inductive GameState : Type :=
| LOADING | MENU | SINGLE_PLAYER | MULTIPLAYER | PAUSED.

Definition GameState_eqb (a b : GameState) : bool :=
  match a, b with
  | LOADING, LOADING | MENU, MENU | SINGLE_PLAYER, SINGLE_PLAYER
  | MULTIPLAYER, MULTIPLAYER | PAUSED, PAUSED => true
  | _, _ => false
  end.

(** The three background workers of [initWorkers]. *)
Inductive WorkerKind : Type := WorldGeneration | Physics | Pathfinding.

(** Classes instantiated with [new]. *)
Inductive Ctor : Type :=
| CSettings | CAudio | CUI | CMultiplayer
| CWorker (k : WorkerKind)
| CRenderer | CWorld | CPlayer.

(** [GameConfig] (lines 16-36): the two entries the controller reads. *)
Definition worldSize : Z * Z * Z := (10000, 10000, 256)%Z.
Definition chunkSize : Z := 16%Z.

Record Point : Type := mkPoint { px : Z; py : Z; pz : Z }.

Record Renderer : Type := mkRenderer { r_id : nat }.

(** A [World] is known to the controller by its identity and by the
    arguments of its constructor. *)
Record World : Type := mkWorld {
  w_id : nat;
  w_size : Z * Z * Z;
  w_chunk : Z;
  w_seed : option Z;
  w_type : string;
  w_generator : option nat
}.

Record Player : Type := mkPlayer { p_id : nat; p_pos : Point }.

(** [this.workers]: an object with at most the three keys of
    [initWorkers]. *)
Record Workers : Type := mkWorkers {
  worldGenerator : option nat;
  physics : option nat;
  pathfinding : option nat
}.

(** [e.data] of a worker message: the [type] tag and an opaque payload. *)
Record WorkerMessage : Type := mkMsg { msg_type : string; msg_payload : Z }.

(** What [world.save()] returns; [loadGame] reads [name], [seed] and
    [type] from it. *)
Record WorldSnapshot : Type := mkWorldSnapshot {
  ws_name : option string;
  ws_seed : option Z;
  ws_type : string;
  ws_data : Z
}.

(** The object literal built by [saveGame]; a field is [None] when the
    collaborator returned [null] or [undefined]. *)
Record SaveRecord : Type := mkSaveRecord {
  sv_world : option WorldSnapshot;
  sv_player : option Z;
  sv_settings : option Z;
  sv_timestamp : Z
}.

(** Callbacks the page owes the controller. *)
Inductive Task : Type :=
| FrameCallback      (* requestAnimationFrame(() => this.gameLoop()) *)
| ConnectAwait       (* await this.multiplayer.connect(...) *)
| SavePromise        (* StorageManager.saveGame(...).then(...).catch(...) *)
| LoadPromise        (* StorageManager.loadGame(...).then(...).catch(...) *)
| SettingsAwait      (* await this.settings.load() in init *)
| MenuTimer.         (* setTimeout(..., 2000) in init *)

Definition Task_eqb (a b : Task) : bool :=
  match a, b with
  | FrameCallback, FrameCallback | ConnectAwait, ConnectAwait
  | SavePromise, SavePromise | LoadPromise, LoadPromise
  | SettingsAwait, SettingsAwait | MenuTimer, MenuTimer => true
  | _, _ => false
  end.

Inductive Err : Type :=
| TypeError           (* a property read on null or undefined *)
| CollaboratorError   (* a constructor threw *)
| Rejected.           (* an awaited promise rejected *)

(** Calls made on the collaborators and on the page. *)
Inductive Effect : Type :=
| LoadingScreen (active : bool)
| Hidden (element : string) (hidden : bool)
| New (c : Ctor) (id : nat)
| SettingsLoad (snapshot : option Z)
| UiSetupEventListeners
| ShowMainMenu | ShowPauseMenu | HidePauseMenu
| UpdateFPS (value : Z)
| UiUpdate (p : option Player) (w : option World)
| ShowMessage (text : string)
| ShowError (text : string)
| PlayMusic (track : string) | PauseMusic | ResumeMusic | StopMusic
| RendererResize (r : Renderer)
| RendererRender (r : Renderer) (w : option World) (p : option Player) (t : Q)
| RendererDispose (r : Renderer)
| WorldSetPlayer (w : World) (p : option Player)
| WorldSetMultiplayer (w : World) (session : option nat)
| WorldUpdate (w : World) (deltaTime : Q)
| WorldReceiveChunk (w : World) (chunk : Z)
| WorldReceivePhysicsUpdate (w : World) (update : Z)
| WorldReceivePath (w : World) (path : Z)
| WorldLoad (w : World) (snapshot : option WorldSnapshot)
| WorldDispose (w : World)
| PlayerUpdate (p : Player) (deltaTime : Q) (w : option World)
| PlayerLoad (p : Player) (snapshot : option Z)
| WorldSave (w : World)
| PlayerSave (p : Player)
| SettingsSave
| MpConnect (address : option string)
| MpDisconnect
| StorageSaveGame (r : SaveRecord)
| StorageLoadGame (saveId : Z)
| RequestAnimationFrame
| SetTimeout (ms : Z)
| PreventUnload
| Uncaught (e : Err)
| UnhandledRejection (e : Err).

Record Game : Type := mkGame {
  state : GameState;
  canvas : bool;
  renderer : option Renderer;
  world : option World;
  player : option Player;
  ui : option nat;
  audio : option nat;
  settings : option nat;
  multiplayer : option nat;
  workers : Workers;
  lastTime : Z;
  frameCount : Z;
  fps : Z;
  fpsUpdateTime : Z;
  isInitialized : bool;
  isGameRunning : bool;   (* never initialised: undefined reads as false *)
  trace : list Effect;
  nextId : nat;
  tasks : Task -> nat;
  listeners : bool
}.

(** Field assignment. *)

Definition set_state (v : GameState) (s : Game) : Game :=
  mkGame v (canvas s) (renderer s) (world s) (player s) (ui s) (audio s)
    (settings s) (multiplayer s) (workers s) (lastTime s) (frameCount s) (fps
    s) (fpsUpdateTime s) (isInitialized s) (isGameRunning s) (trace s) (nextId
    s) (tasks s) (listeners s).

Definition set_canvas (v : bool) (s : Game) : Game :=
  mkGame (state s) v (renderer s) (world s) (player s) (ui s) (audio s)
    (settings s) (multiplayer s) (workers s) (lastTime s) (frameCount s) (fps
    s) (fpsUpdateTime s) (isInitialized s) (isGameRunning s) (trace s) (nextId
    s) (tasks s) (listeners s).

Definition set_renderer (v : option Renderer) (s : Game) : Game :=
  mkGame (state s) (canvas s) v (world s) (player s) (ui s) (audio s)
    (settings s) (multiplayer s) (workers s) (lastTime s) (frameCount s) (fps
    s) (fpsUpdateTime s) (isInitialized s) (isGameRunning s) (trace s) (nextId
    s) (tasks s) (listeners s).

Definition set_world (v : option World) (s : Game) : Game :=
  mkGame (state s) (canvas s) (renderer s) v (player s) (ui s) (audio s)
    (settings s) (multiplayer s) (workers s) (lastTime s) (frameCount s) (fps
    s) (fpsUpdateTime s) (isInitialized s) (isGameRunning s) (trace s) (nextId
    s) (tasks s) (listeners s).

Definition set_player (v : option Player) (s : Game) : Game :=
  mkGame (state s) (canvas s) (renderer s) (world s) v (ui s) (audio s)
    (settings s) (multiplayer s) (workers s) (lastTime s) (frameCount s) (fps
    s) (fpsUpdateTime s) (isInitialized s) (isGameRunning s) (trace s) (nextId
    s) (tasks s) (listeners s).

Definition set_ui (v : option nat) (s : Game) : Game :=
  mkGame (state s) (canvas s) (renderer s) (world s) (player s) v (audio s)
    (settings s) (multiplayer s) (workers s) (lastTime s) (frameCount s) (fps
    s) (fpsUpdateTime s) (isInitialized s) (isGameRunning s) (trace s) (nextId
    s) (tasks s) (listeners s).

Definition set_audio (v : option nat) (s : Game) : Game :=
  mkGame (state s) (canvas s) (renderer s) (world s) (player s) (ui s) v
    (settings s) (multiplayer s) (workers s) (lastTime s) (frameCount s) (fps
    s) (fpsUpdateTime s) (isInitialized s) (isGameRunning s) (trace s) (nextId
    s) (tasks s) (listeners s).

Definition set_settings (v : option nat) (s : Game) : Game :=
  mkGame (state s) (canvas s) (renderer s) (world s) (player s) (ui s) (audio
    s) v (multiplayer s) (workers s) (lastTime s) (frameCount s) (fps s)
    (fpsUpdateTime s) (isInitialized s) (isGameRunning s) (trace s) (nextId s)
    (tasks s) (listeners s).

Definition set_multiplayer (v : option nat) (s : Game) : Game :=
  mkGame (state s) (canvas s) (renderer s) (world s) (player s) (ui s) (audio
    s) (settings s) v (workers s) (lastTime s) (frameCount s) (fps s)
    (fpsUpdateTime s) (isInitialized s) (isGameRunning s) (trace s) (nextId s)
    (tasks s) (listeners s).

Definition set_workers (v : Workers) (s : Game) : Game :=
  mkGame (state s) (canvas s) (renderer s) (world s) (player s) (ui s) (audio
    s) (settings s) (multiplayer s) v (lastTime s) (frameCount s) (fps s)
    (fpsUpdateTime s) (isInitialized s) (isGameRunning s) (trace s) (nextId s)
    (tasks s) (listeners s).

Definition set_lastTime (v : Z) (s : Game) : Game :=
  mkGame (state s) (canvas s) (renderer s) (world s) (player s) (ui s) (audio
    s) (settings s) (multiplayer s) (workers s) v (frameCount s) (fps s)
    (fpsUpdateTime s) (isInitialized s) (isGameRunning s) (trace s) (nextId s)
    (tasks s) (listeners s).

Definition set_frameCount (v : Z) (s : Game) : Game :=
  mkGame (state s) (canvas s) (renderer s) (world s) (player s) (ui s) (audio
    s) (settings s) (multiplayer s) (workers s) (lastTime s) v (fps s)
    (fpsUpdateTime s) (isInitialized s) (isGameRunning s) (trace s) (nextId s)
    (tasks s) (listeners s).

Definition set_fps (v : Z) (s : Game) : Game :=
  mkGame (state s) (canvas s) (renderer s) (world s) (player s) (ui s) (audio
    s) (settings s) (multiplayer s) (workers s) (lastTime s) (frameCount s) v
    (fpsUpdateTime s) (isInitialized s) (isGameRunning s) (trace s) (nextId s)
    (tasks s) (listeners s).

Definition set_fpsUpdateTime (v : Z) (s : Game) : Game :=
  mkGame (state s) (canvas s) (renderer s) (world s) (player s) (ui s) (audio
    s) (settings s) (multiplayer s) (workers s) (lastTime s) (frameCount s)
    (fps s) v (isInitialized s) (isGameRunning s) (trace s) (nextId s) (tasks
    s) (listeners s).

Definition set_isInitialized (v : bool) (s : Game) : Game :=
  mkGame (state s) (canvas s) (renderer s) (world s) (player s) (ui s) (audio
    s) (settings s) (multiplayer s) (workers s) (lastTime s) (frameCount s)
    (fps s) (fpsUpdateTime s) v (isGameRunning s) (trace s) (nextId s) (tasks
    s) (listeners s).

Definition set_isGameRunning (v : bool) (s : Game) : Game :=
  mkGame (state s) (canvas s) (renderer s) (world s) (player s) (ui s) (audio
    s) (settings s) (multiplayer s) (workers s) (lastTime s) (frameCount s)
    (fps s) (fpsUpdateTime s) (isInitialized s) v (trace s) (nextId s) (tasks
    s) (listeners s).

Definition set_trace (v : list Effect) (s : Game) : Game :=
  mkGame (state s) (canvas s) (renderer s) (world s) (player s) (ui s) (audio
    s) (settings s) (multiplayer s) (workers s) (lastTime s) (frameCount s)
    (fps s) (fpsUpdateTime s) (isInitialized s) (isGameRunning s) v (nextId s)
    (tasks s) (listeners s).

Definition set_nextId (v : nat) (s : Game) : Game :=
  mkGame (state s) (canvas s) (renderer s) (world s) (player s) (ui s) (audio
    s) (settings s) (multiplayer s) (workers s) (lastTime s) (frameCount s)
    (fps s) (fpsUpdateTime s) (isInitialized s) (isGameRunning s) (trace s) v
    (tasks s) (listeners s).

Definition set_tasks (v : Task -> nat) (s : Game) : Game :=
  mkGame (state s) (canvas s) (renderer s) (world s) (player s) (ui s) (audio
    s) (settings s) (multiplayer s) (workers s) (lastTime s) (frameCount s)
    (fps s) (fpsUpdateTime s) (isInitialized s) (isGameRunning s) (trace s)
    (nextId s) v (listeners s).

Definition set_listeners (v : bool) (s : Game) : Game :=
  mkGame (state s) (canvas s) (renderer s) (world s) (player s) (ui s) (audio
    s) (settings s) (multiplayer s) (workers s) (lastTime s) (frameCount s)
    (fps s) (fpsUpdateTime s) (isInitialized s) (isGameRunning s) (trace s)
    (nextId s) (tasks s) v.

(** What the environment answers during one run of a handler. *)
Record Host : Type := mkHost {
  perf_now : Z;                      (* performance.now(), milliseconds *)
  date_now : Z;                      (* Date.now() *)
  ctor_throws : Ctor -> bool;
  world_spawn : World -> Point;      (* world.getSpawnPoint() *)
  mp_spawn : Point;                  (* multiplayer.getSpawnPoint() *)
  is_mobile : bool;                  (* isMobile() *)
  show_fps : bool;                   (* settings.get('showFPS') is truthy *)
  world_save : World -> option WorldSnapshot;
  player_save : Player -> option Z;
  settings_save : option Z
}.

(** ** The monad of methods *)

Inductive Res (A : Type) : Type :=
| Ok (a : A)
| Throw (e : Err).
Arguments Ok {A} a.
Arguments Throw {A} e.

Definition M (A : Type) : Type := Game -> Res A * Game.

Definition ret {A} (a : A) : M A := fun s => (Ok a, s).

Definition bind {A B} (m : M A) (k : A -> M B) : M B :=
  fun s => match m s with
           | (Ok a, s') => k a s'
           | (Throw e, s') => (Throw e, s')
           end.

Declare Scope js_scope.
Delimit Scope js_scope with js.
Notation "x <- m ;; k" := (bind m (fun x => k))
  (at level 61, m at next level, right associativity) : js_scope.
Notation "m ;; k" := (bind m (fun _ => k))
  (at level 61, right associativity) : js_scope.
Local Open Scope js_scope.

Definition throw {A} (e : Err) : M A := fun s => (Throw e, s).
Definition gets {A} (f : Game -> A) : M A := fun s => (Ok (f s), s).
Definition modify (f : Game -> Game) : M unit := fun s => (Ok tt, f s).
Definition when (b : bool) (m : M unit) : M unit := if b then m else ret tt.

(** [try { body } catch (e) { handler }]. *)
Definition try_catch (body : M unit) (handler : Err -> M unit) : M unit :=
  fun s => match body s with
           | (Ok _, s') => (Ok tt, s')
           | (Throw e, s') => handler e s'
           end.

(** Reading a property of [o]: a TypeError when [o] is null. *)
Definition deref {A} (o : option A) : M A :=
  match o with
  | Some a => ret a
  | None => throw TypeError
  end.

Definition emit (e : Effect) : M unit :=
  modify (fun s => set_trace (e :: trace s) s).

Definition exec {A} (m : M A) (s : Game) : Game := snd (m s).
Definition outcome {A} (m : M A) (s : Game) : Res A := fst (m s).

(** One more callback of kind [t] owed by the page. *)
Definition add_task (t : Task) (q : Task -> nat) : Task -> nat :=
  fun t' => if Task_eqb t t' then S (q t') else q t'.

Definition take_task (t : Task) (q : Task -> nat) : Task -> nat :=
  fun t' => if Task_eqb t t' then pred (q t') else q t'.

Definition schedule (t : Task) : M unit :=
  modify (fun s => set_tasks (add_task t (tasks s)) s).

(** An [async] method never throws into its caller: an exception that
    leaves its body rejects the promise it returned, which nobody
    handles. *)
Definition async (body : M unit) : M unit :=
  fun s => match body s with
           | (Ok _, s') => (Ok tt, s')
           | (Throw e, s') => (Ok tt, set_trace (UnhandledRejection e :: trace s') s')
           end.

(** ** The methods of [BlockCraftAdventure] *)

Section Methods.

Variable h : Host.

Definition fresh : M nat :=
  n <- gets nextId ;;
  modify (set_nextId (S n)) ;;
  ret n.

(** [new C(...)]: throws when the host says so, else a fresh object. *)
Definition construct (c : Ctor) : M nat :=
  if ctor_throws h c then throw CollaboratorError
  else (id <- fresh ;; emit (New c id) ;; ret id).

(** Lines 448-450. *)
Definition showError (message : string) : M unit :=
  u <- gets ui ;; _ <- deref u ;;
  emit (ShowError message).

(** Lines 100-120; the progress animation is cosmetic and left out. *)
Definition showLoadingScreen : M unit := emit (LoadingScreen true).
Definition hideLoadingScreen : M unit := emit (LoadingScreen false).

(** Lines 122-146: the three workers; their [onmessage] handlers are
    [onWorkerMessage] below. *)
Definition initWorkers : M unit :=
  g <- construct (CWorker WorldGeneration) ;;
  modify (fun s => set_workers
    (mkWorkers (Some g) (physics (workers s)) (pathfinding (workers s))) s) ;;
  p <- construct (CWorker Physics) ;;
  modify (fun s => set_workers
    (mkWorkers (worldGenerator (workers s)) (Some p) (pathfinding (workers s))) s) ;;
  f <- construct (CWorker Pathfinding) ;;
  modify (fun s => set_workers
    (mkWorkers (worldGenerator (workers s)) (physics (workers s)) (Some f)) s).

(** The [onmessage] handler of channel [k] (lines 125-129, 133-137,
    141-145): the tag is compared, then [this.world] is dereferenced. *)
Definition onWorkerMessage (k : WorkerKind) (m : WorkerMessage) : M unit :=
  match k with
  | WorldGeneration =>
      when (String.eqb (msg_type m) "chunkGenerated")
        (w <- gets world ;; w' <- deref w ;;
         emit (WorldReceiveChunk w' (msg_payload m)))
  | Physics =>
      when (String.eqb (msg_type m) "physicsUpdate")
        (w <- gets world ;; w' <- deref w ;;
         emit (WorldReceivePhysicsUpdate w' (msg_payload m)))
  | Pathfinding =>
      when (String.eqb (msg_type m) "pathFound")
        (w <- gets world ;; w' <- deref w ;;
         emit (WorldReceivePath w' (msg_payload m)))
  end.

(** Lines 148-168. *)
Definition setupEventListeners : M unit :=
  modify (set_listeners true) ;;
  u <- gets ui ;; _ <- deref u ;;
  emit UiSetupEventListeners.

(** Lines 170-174. *)
Definition handleResize : M unit :=
  r <- gets renderer ;;
  match r with
  | Some r' => emit (RendererResize r')
  | None => ret tt
  end.

(** The [beforeunload] listener (lines 153-158). *)
Definition onBeforeUnload : M unit :=
  st <- gets state ;;
  when (GameState_eqb st SINGLE_PLAYER || GameState_eqb st MULTIPLAYER)
    (emit PreventUnload).

(** The [error] listener (lines 161-164). *)
Definition onWindowError : M unit :=
  showError "An error occurred. Please refresh the page.".

(** Lines 293-301. *)
Definition pauseGame : M unit :=
  u <- gets ui ;; _ <- deref u ;;
  emit ShowPauseMenu ;;
  a <- gets audio ;; _ <- deref a ;;
  emit PauseMusic.

(** Lines 317-349. *)
Definition returnToMenu : M unit :=
  modify (set_isGameRunning false) ;;
  emit (Hidden "game-screen" true) ;;
  emit (Hidden "mobile-controls" true) ;;
  a <- gets audio ;; _ <- deref a ;;
  emit StopMusic ;;
  r <- gets renderer ;;
  match r with
  | Some r' => emit (RendererDispose r') ;; modify (set_renderer None)
  | None => ret tt
  end ;;
  w <- gets world ;;
  match w with
  | Some w' => emit (WorldDispose w') ;; modify (set_world None)
  | None => ret tt
  end ;;
  mp <- gets multiplayer ;;
  match mp with
  | Some _ => emit MpDisconnect
  | None => ret tt
  end ;;
  u <- gets ui ;; _ <- deref u ;;
  emit ShowMainMenu.

(** Lines 351-394. *)
Definition gameLoop : M unit :=
  running <- gets isGameRunning ;;
  when (negb running) (modify (set_isGameRunning true)) ;;
  let currentTime := perf_now h in
  lastT <- gets lastTime ;;
  let deltaTime := ((currentTime - lastT) # 1000)%Q in
  modify (set_lastTime currentTime) ;;
  modify (fun s => set_frameCount (frameCount s + 1)%Z s) ;;
  anchor <- gets fpsUpdateTime ;;
  when (currentTime - anchor >=? 1000)%Z
    (modify (fun s => set_fps (frameCount s) s) ;;
     modify (set_frameCount 0%Z) ;;
     modify (set_fpsUpdateTime currentTime) ;;
     st <- gets settings ;; _ <- deref st ;;
     when (show_fps h)
       (u <- gets ui ;; _ <- deref u ;;
        f <- gets fps ;;
        emit (UpdateFPS f))) ;;
  w <- gets world ;;
  match w with
  | Some w' => emit (WorldUpdate w' deltaTime)
  | None => ret tt
  end ;;
  p <- gets player ;;
  match p with
  | Some p' => w2 <- gets world ;; emit (PlayerUpdate p' deltaTime w2)
  | None => ret tt
  end ;;
  r <- gets renderer ;;
  match r with
  | Some r' =>
      w2 <- gets world ;; p2 <- gets player ;;
      emit (RendererRender r' w2 p2 (currentTime # 1000)%Q)
  | None => ret tt
  end ;;
  u <- gets ui ;;
  match u with
  | Some _ => p2 <- gets player ;; w2 <- gets world ;; emit (UiUpdate p2 w2)
  | None => ret tt
  end ;;
  running' <- gets isGameRunning ;;
  when running' (emit RequestAnimationFrame ;; schedule FrameCallback).

(** Lines 176-197, with the two session entries left open: they call
    back into [setState] from their [catch] blocks. *)
Definition setState_with (startSP startMP : M unit) (newState : GameState)
  : M unit :=
  modify (set_state newState) ;;
  match newState with
  | SINGLE_PLAYER => startSP
  | MULTIPLAYER => startMP
  | PAUSED => pauseGame
  | MENU => returnToMenu
  | LOADING => ret tt
  end.

(** [this.setState(GameState.MENU)] as the [catch] blocks call it: the
    [MENU] branch starts no session, so the recursion stops here
    (see [setState_MENU_eq]). *)
Definition setState_MENU : M unit := setState_with (ret tt) (ret tt) MENU.

(** The statements shared by both session entries after the world and
    the player are wired (lines 221-234 and 270-283). *)
Definition enterGame : M unit :=
  modify (set_lastTime (perf_now h)) ;;
  gameLoop ;;
  a <- gets audio ;; _ <- deref a ;;
  emit (PlayMusic "game") ;;
  emit (Hidden "game-screen" false) ;;
  when (is_mobile h) (emit (Hidden "mobile-controls" false)).

Definition newWorld (seed : option Z) (type : string) : M World :=
  g <- gets (fun s => worldGenerator (workers s)) ;;
  id <- construct CWorld ;;
  ret (mkWorld id worldSize chunkSize seed type g).

Definition newPlayer (spawnPoint : Point) : M Player :=
  id <- construct CPlayer ;;
  ret (mkPlayer id spawnPoint).

(** Lines 199-242. *)
Definition startSinglePlayer (worldName : option string)
    (worldSeed : option Z) (worldType : string) : M unit :=
  async (try_catch
    (modify (set_canvas true) ;;
     r <- construct CRenderer ;;
     modify (set_renderer (Some (mkRenderer r))) ;;
     w <- newWorld worldSeed worldType ;;
     modify (set_world (Some w)) ;;
     w1 <- gets world ;; w2 <- deref w1 ;;
     let spawnPoint := world_spawn h w2 in
     p <- newPlayer spawnPoint ;;
     modify (set_player (Some p)) ;;
     w3 <- gets world ;; w4 <- deref w3 ;;
     p1 <- gets player ;;
     emit (WorldSetPlayer w4 p1) ;;
     enterGame)
    (fun _ =>
       showError "Failed to start game. Please try again." ;;
       setState_MENU)).

Definition catchMultiplayer : M unit :=
  showError "Failed to connect to server. Please try again." ;;
  setState_MENU.

(** Lines 244-251: [startMultiplayer] up to its [await]. *)
Definition startMultiplayer (serverAddress : option string) : M unit :=
  async (try_catch
    (modify (set_canvas true) ;;
     r <- construct CRenderer ;;
     modify (set_renderer (Some (mkRenderer r))) ;;
     mp <- gets multiplayer ;; _ <- deref mp ;;
     emit (MpConnect serverAddress) ;;
     schedule ConnectAwait)
    (fun _ => catchMultiplayer)).

(** Lines 251-290: the rest of [startMultiplayer], run when the
    connection promise settles. *)
Definition startMultiplayer_resume (connected : bool) : M unit :=
  async (try_catch
    (when (negb connected) (throw Rejected) ;;
     mp <- gets multiplayer ;; _ <- deref mp ;;
     let spawnPoint := mp_spawn h in
     p <- newPlayer spawnPoint ;;
     modify (set_player (Some p)) ;;
     w <- newWorld None "multiplayer" ;;
     modify (set_world (Some w)) ;;
     w1 <- gets world ;; w2 <- deref w1 ;;
     p1 <- gets player ;;
     emit (WorldSetPlayer w2 p1) ;;
     w3 <- gets world ;; w4 <- deref w3 ;;
     mp1 <- gets multiplayer ;;
     emit (WorldSetMultiplayer w4 mp1) ;;
     enterGame)
    (fun _ => catchMultiplayer)).

(** Lines 176-197: [setState] calls both entries without arguments, so
    their parameters take the defaults. *)
Definition setState (newState : GameState) : M unit :=
  setState_with (startSinglePlayer None None "default")
                (startMultiplayer None) newState.

(** Lines 303-315. *)
Definition resumeGame : M unit :=
  u <- gets ui ;; _ <- deref u ;;
  emit HidePauseMenu ;;
  a <- gets audio ;; _ <- deref a ;;
  emit ResumeMusic ;;
  modify (set_lastTime (perf_now h)) ;;
  gameLoop.

(** Lines 396-404: the synchronous part of [saveGame]. *)
Definition saveGame : M unit :=
  w <- gets world ;;
  p <- gets player ;;
  match w, p with
  | Some w', Some p' =>
      emit (WorldSave w') ;;
      emit (PlayerSave p') ;;
      st <- gets settings ;; _ <- deref st ;;
      emit SettingsSave ;;
      let saveData :=
        mkSaveRecord (world_save h w') (player_save h p')
                     (settings_save h) (date_now h) in
      emit (StorageSaveGame saveData) ;;
      schedule SavePromise
  | _, _ => ret tt
  end.

(** Lines 407-413: the [then] and [catch] callbacks of the storage
    promise. *)
Definition saveGame_settled (stored : bool) : M unit :=
  async (try_catch
    (when (negb stored) (throw Rejected) ;;
     u <- gets ui ;; _ <- deref u ;;
     emit (ShowMessage "Game saved successfully!"))
    (fun _ =>
       u <- gets ui ;; _ <- deref u ;;
       emit (ShowError "Failed to save game."))).

(** What the promise of [StorageManager.loadGame] settles to. *)
Inductive LoadResult : Type :=
| LoadRejected
| LoadAbsent
| LoadFound (saveData : SaveRecord).

(** Line 418. *)
Definition loadGame (saveId : Z) : M unit :=
  emit (StorageLoadGame saveId) ;;
  schedule LoadPromise.

(** Lines 419-441. *)
Definition loadGame_settled (r : LoadResult) : M unit :=
  async (try_catch
    match r with
    | LoadRejected => throw Rejected
    | LoadFound saveData =>
        st <- gets settings ;; _ <- deref st ;;
        emit (SettingsLoad (sv_settings saveData)) ;;
        ws <- deref (sv_world saveData) ;;
        startSinglePlayer (ws_name ws) (ws_seed ws) (ws_type ws) ;;
        p <- gets player ;; p' <- deref p ;;
        emit (PlayerLoad p' (sv_player saveData)) ;;
        w <- gets world ;; w' <- deref w ;;
        emit (WorldLoad w' (sv_world saveData)) ;;
        u <- gets ui ;; _ <- deref u ;;
        emit (ShowMessage "Game loaded successfully!")
    | LoadAbsent =>
        u <- gets ui ;; _ <- deref u ;;
        emit (ShowError "Save file not found.")
    end
    (fun _ =>
       u <- gets ui ;; _ <- deref u ;;
       emit (ShowError "Failed to load game."))).

Definition catchInit : M unit :=
  showError "Failed to initialize game. Please refresh the page.".

(** Lines 61-68: [init] up to [await this.settings.load()]. *)
Definition init : M unit :=
  async (try_catch
    (showLoadingScreen ;;
     st <- construct CSettings ;;
     modify (set_settings (Some st)) ;;
     st1 <- gets settings ;; _ <- deref st1 ;;
     emit (SettingsLoad None) ;;
     schedule SettingsAwait)
    (fun _ => catchInit)).

(** Lines 70-97: the rest of [init]. *)
Definition init_resume (loaded : bool) : M unit :=
  async (try_catch
    (when (negb loaded) (throw Rejected) ;;
     a <- construct CAudio ;;
     modify (set_audio (Some a)) ;;
     u <- construct CUI ;;
     modify (set_ui (Some u)) ;;
     mp <- construct CMultiplayer ;;
     modify (set_multiplayer (Some mp)) ;;
     initWorkers ;;
     setupEventListeners ;;
     emit (SetTimeout 2000%Z) ;;
     schedule MenuTimer ;;
     modify (set_isInitialized true))
    (fun _ => catchInit)).

(** The timer callback of lines 86-90. *)
Definition onMenuTimer : M unit :=
  hideLoadingScreen ;;
  setState MENU ;;
  u <- gets ui ;; _ <- deref u ;;
  emit ShowMainMenu.

(** ** The page *)

(** An exception that leaves a handler is reported to the window, whose
    [error] listener (once registered) shows a message. *)
Definition report (e : Err) (s : Game) : Game :=
  let s' := set_trace (Uncaught e :: trace s) s in
  if listeners s' then exec onWindowError s' else s'.

Definition run (m : M unit) (s : Game) : Game :=
  match m s with
  | (Ok _, s') => s'
  | (Throw e, s') => report e s'
  end.

Inductive Event : Type :=
| CallSetState (newState : GameState)
| CallStartSinglePlayer (worldName : option string) (worldSeed : option Z)
                        (worldType : string)
| CallStartMultiplayer (serverAddress : option string)
| CallPauseGame
| CallResumeGame
| CallReturnToMenu
| CallSaveGame
| CallLoadGame (saveId : Z)
| Resize
| BeforeUnload
| WorkerMessageEvent (k : WorkerKind) (m : WorkerMessage)
| Frame
| ConnectSettled (connected : bool)
| SaveSettled (stored : bool)
| LoadSettled (r : LoadResult)
| SettingsSettled (loaded : bool)
| TimerFired.

Definition handler (e : Event) : M unit :=
  match e with
  | CallSetState m => setState m
  | CallStartSinglePlayer n sd ty => startSinglePlayer n sd ty
  | CallStartMultiplayer a => startMultiplayer a
  | CallPauseGame => pauseGame
  | CallResumeGame => resumeGame
  | CallReturnToMenu => returnToMenu
  | CallSaveGame => saveGame
  | CallLoadGame i => loadGame i
  | Resize => handleResize
  | BeforeUnload => onBeforeUnload
  | WorkerMessageEvent k m => onWorkerMessage k m
  | Frame => gameLoop
  | ConnectSettled c => startMultiplayer_resume c
  | SaveSettled b => saveGame_settled b
  | LoadSettled r => loadGame_settled r
  | SettingsSettled b => init_resume b
  | TimerFired => onMenuTimer
  end.

(** The callback an event delivers, if it is one. *)
Definition delivers (e : Event) : option Task :=
  match e with
  | Frame => Some FrameCallback
  | ConnectSettled _ => Some ConnectAwait
  | SaveSettled _ => Some SavePromise
  | LoadSettled _ => Some LoadPromise
  | SettingsSettled _ => Some SettingsAwait
  | TimerFired => Some MenuTimer
  | _ => None
  end.

(** One turn of the event loop: a callback runs only if it is owed, and
    is then no longer owed. *)
Definition step (e : Event) (s : Game) : Game :=
  match delivers e with
  | Some t =>
      match tasks s t with
      | O => s
      | S _ => run (handler e) (set_tasks (take_task t (tasks s)) s)
      end
  | None => run (handler e) s
  end.

End Methods.

(** The field initialisers of the constructor (lines 41-55). *)
Definition blank : Game :=
  mkGame LOADING false None None None None None None None
         (mkWorkers None None None) 0 0 0 0 false false
         [] 0 (fun _ => 0) false.

(** [new BlockCraftAdventure()]: the initialisers, then [this.init()]. *)
Definition newGame (h : Host) : Game := exec (init h) blank.

(** A run of the page: each event with the host's answers during it. *)
Fixpoint steps (es : list (Host * Event)) (s : Game) : Game :=
  match es with
  | [] => s
  | (h, e) :: es' => steps es' (step h e s)
  end.

(** ** Vocabulary of the statements *)

(** The state [init] leaves once it has completed: the four long-lived
    collaborators exist. *)
Definition initialized (s : Game) : Prop :=
  ui s <> None /\ audio s <> None /\ settings s <> None /\
  multiplayer s <> None.

(** How many calls of one sort the trace holds. *)
Definition count (p : Effect -> bool) (l : list Effect) : nat :=
  List.length (filter p l).

Definition is_UpdateFPS (e : Effect) : bool :=
  match e with UpdateFPS _ => true | _ => false end.

Definition is_ShowError (e : Effect) : bool :=
  match e with ShowError _ => true | _ => false end.

Definition is_RAF (e : Effect) : bool :=
  match e with RequestAnimationFrame => true | _ => false end.

Definition WorkerKind_eqb (a b : WorkerKind) : bool :=
  match a, b with
  | WorldGeneration, WorldGeneration | Physics, Physics
  | Pathfinding, Pathfinding => true
  | _, _ => false
  end.

Definition is_NewWorker (k : WorkerKind) (e : Effect) : bool :=
  match e with
  | New (CWorker k') _ => WorkerKind_eqb k k'
  | _ => false
  end.

Definition worker_of (k : WorkerKind) (w : Workers) : option nat :=
  match k with
  | WorldGeneration => worldGenerator w
  | Physics => physics w
  | Pathfinding => pathfinding w
  end.

(** The tag each channel's handler looks for. *)
Definition channel_tag (k : WorkerKind) : string :=
  match k with
  | WorldGeneration => "chunkGenerated"
  | Physics => "physicsUpdate"
  | Pathfinding => "pathFound"
  end.

(** The transition table as the specification words it (section 4.1);
    the code has no such table. *)
Definition spec_transition (from to : GameState) : bool :=
  match from, to with
  | LOADING, MENU => true
  | MENU, SINGLE_PLAYER | MENU, MULTIPLAYER => true
  | SINGLE_PLAYER, PAUSED | MULTIPLAYER, PAUSED => true
  | PAUSED, SINGLE_PLAYER | PAUSED, MULTIPLAYER => true
  | SINGLE_PLAYER, MENU | MULTIPLAYER, MENU | PAUSED, MENU => true
  | _, _ => false
  end.

(** A session entry started by [setState] fails before [setState]
    returns when one of the constructors it reaches throws. *)
Definition entry_fails (h : Host) (m : GameState) : bool :=
  match m with
  | SINGLE_PLAYER =>
      ctor_throws h CRenderer || ctor_throws h CWorld || ctor_throws h CPlayer
  | MULTIPLAYER => ctor_throws h CRenderer
  | _ => false
  end.

(** The mode a [setState] request ends in. *)
Definition settles_in (r : Host * GameState) : GameState :=
  if entry_fails (fst r) (snd r) then MENU else snd r.

(** A sequence of [setState] calls. *)
Fixpoint requests (rs : list (Host * GameState)) (s : Game) : Game :=
  match rs with
  | [] => s
  | (h, m) :: rs' => requests rs' (exec (setState h m) s)
  end.

(** A sequence of frame passes. *)
Fixpoint passes (hs : list Host) (s : Game) : Game :=
  match hs with
  | [] => s
  | h :: hs' => passes hs' (exec (gameLoop h) s)
  end.

(** The page delivering queued frame callbacks, one per host. *)
Definition frames (hs : list Host) (s : Game) : Game :=
  steps (map (fun h => (h, Frame)) hs) s.


(** What the teardown of the fallback did to the session objects, read
    off the calls [added] to the trace: every renderer and every world the
    failed entry constructed was disposed, and so was a renderer or a
    world that was live before the entry, unless the entry had already put
    a new one in its place. *)
Definition cleaned_up (s s' : Game) : Prop :=
  exists added,
    trace s' = added ++ trace s /\
    (forall id, In (New CRenderer id) added ->
       In (RendererDispose (mkRenderer id)) added) /\
    (forall id, In (New CWorld id) added ->
       exists w, w_id w = id /\ In (WorldDispose w) added) /\
    (forall r, renderer s = Some r ->
       In (RendererDispose r) added \/ exists id, In (New CRenderer id) added) /\
    (forall w, world s = Some w ->
       In (WorldDispose w) added \/ exists id, In (New CWorld id) added).


(** A single-player session built from [seed] and [type] stands in [s']:
    renderer, world and player exist, the player is at the world's spawn
    point, and the first frame pass has run and queued the next. *)
Definition session_started (h : Host) (seed : option Z) (type : string)
    (s s' : Game) : Prop :=
  renderer s' <> None /\
  option_map w_seed (world s') = Some seed /\
  option_map w_type (world s') = Some type /\
  option_map p_pos (player s') = option_map (world_spawn h) (world s') /\
  isGameRunning s' = true /\
  tasks s' FrameCallback = S (tasks s FrameCallback) /\
  count is_RAF (trace s') = S (count is_RAF (trace s)).

(** The claim of a seeded start, as the specification words it. *)
Definition started_with_seed (seed : Z) (s' : Game) : Prop :=
  state s' = SINGLE_PLAYER /\
  exists w, world s' = Some w /\ w_seed w = Some seed.

(** Every event but the one that completes [init]. *)
Definition after_startup (e : Event) : bool :=
  match e with
  | SettingsSettled _ => false
  | _ => true
  end.

(** What no handler after the startup touches: the [workers] object, the
    number of times the worker of kind [k] was constructed, the pending
    continuation of [init], the [isInitialized] flag and the four
    long-lived collaborators. *)
Definition keeps (k : WorkerKind) (s s' : Game) : Prop :=
  workers s' = workers s /\
  count (is_NewWorker k) (trace s') = count (is_NewWorker k) (trace s) /\
  tasks s' SettingsAwait = tasks s SettingsAwait /\
  isInitialized s' = isInitialized s /\
  ui s' = ui s /\ audio s' = audio s /\ settings s' = settings s /\
  multiplayer s' = multiplayer s.

Definition Keeps (k : WorkerKind) {A : Type} (m : M A) : Prop :=
  forall s, keeps k s (snd (m s)).

Definition is_worker (c : Ctor) : bool :=
  match c with CWorker _ => true | _ => false end.

(** The worker of kind [k] is constructed at most once, by the one
    continuation of [init]; it exists once [init] has completed, and only
    if it was constructed. *)
Definition worker_inv (k : WorkerKind) (s : Game) : Prop :=
  count (is_NewWorker k) (trace s) + tasks s SettingsAwait <= 1 /\
  (isInitialized s = true -> worker_of k (workers s) <> None) /\
  (worker_of k (workers s) <> None ->
   count (is_NewWorker k) (trace s) = 1).

(** Calls of [dispose()] on a renderer or a world. *)
Definition is_Dispose (e : Effect) : bool :=
  match e with
  | RendererDispose _ | WorldDispose _ => true
  | _ => false
  end.

(** [init] does not reach its last statement: the settings constructor
    throws (host [h0], before the [await]), the awaited load rejects, or a
    constructor of the second half throws (host [h1]). *)
Definition init_fails (h0 h1 : Host) (loaded : bool) : bool :=
  ctor_throws h0 CSettings || negb loaded ||
  ctor_throws h1 CAudio || ctor_throws h1 CUI ||
  ctor_throws h1 CMultiplayer ||
  ctor_throws h1 (CWorker WorldGeneration) ||
  ctor_throws h1 (CWorker Physics) ||
  ctor_throws h1 (CWorker Pathfinding).

(** A postcondition applied to the state a method leaves. *)
Definition Post (P : Game -> Prop) (s : Game) : Prop := P s.

(** ** Scenarios *)

(** A host in which nothing fails, at time [t]. *)
Definition quietHost (t : Z) : Host :=
  mkHost t (1700000000000 + t)%Z (fun _ => false)
         (fun _ => mkPoint 0 64 0) (mkPoint 8 70 8) false true
         (fun w => Some (mkWorldSnapshot None (w_seed w) (w_type w) 7%Z))
         (fun _ => Some 1%Z) (Some 2%Z).

(** The same host, except that [new World] throws. *)
Definition worldlessHost (t : Z) : Host :=
  mkHost t (1700000000000 + t)%Z
         (fun c => match c with CWorld => true | _ => false end)
         (fun _ => mkPoint 0 64 0) (mkPoint 8 70 8) false true
         (fun _ => None) (fun _ => None) None.

(** [init] has completed, the menu timer has not fired. *)
Definition loaded : Game :=
  step (quietHost 10) (SettingsSettled true) (newGame (quietHost 0)).

(** The main menu. *)
Definition atMenu : Game := step (quietHost 2010) TimerFired loaded.

(** A single-player session started from the menu. *)
Definition playing : Game :=
  step (quietHost 3000) (CallSetState SINGLE_PLAYER) atMenu.

(** The scenarios run as expected. *)
Example startup_reaches_menu :
  (state loaded, state atMenu, state playing) = (LOADING, MENU, SINGLE_PLAYER).
Proof. vm_compute. reflexivity. Qed.

Example startup_creates_workers :
  workers atMenu = mkWorkers (Some 4) (Some 5) (Some 6).
Proof. vm_compute. reflexivity. Qed.

Example playing_has_session :
  (renderer playing, option_map w_id (world playing),
   option_map p_id (player playing), tasks playing FrameCallback)
  = (Some (mkRenderer 7), Some 8, Some 9, 1).
Proof. vm_compute. reflexivity. Qed.

(** ** Symbolic execution *)

Ltac red_js :=
  lazy -[Post cleaned_up Z.geb Z.sub Z.add Z.mul Z.lt Z.le Z.ge Z.gt
         Z.of_nat not Nat.pred Nat.add Nat.sub Nat.le Nat.lt].

(** A scrutinee on which no other case analysis is pending. *)
Ltac plain b :=
  lazymatch b with
  | context [if _ then _ else _] => fail
  | context [match _ with Some _ => _ | None => _ end] => fail
  | context [match _ with O => _ | S _ => _ end] => fail
  | _ => idtac
  end.

(** Case analysis along the control flow of the method under [Post]. *)
Ltac crunch :=
  try match goal with
      | |- let s' := ?X in @?P s' => change (Post P X)
      end;
  repeat (red_js;
    match goal with
    | |- context [Z.geb ?x ?y] => plain x; destruct (Z.geb_spec x y)
    | |- context [if ?b then _ else _] => plain b; destruct b eqn:?
    | |- context [match ?o with Some _ => _ | None => _ end] =>
        plain o; destruct o eqn:?
    | |- context [match ?n with O => _ | S _ => _ end] =>
        plain n; destruct n eqn:?
    end);
  unfold Post; red_js.

Ltac finish :=
  intros; repeat split; intros;
  try reflexivity; try assumption; try lia; try congruence;
  try discriminate.

(** ** Frame passes *)

Lemma pass_inside_window (h : Host) (s : Game) :
  (perf_now h - fpsUpdateTime s < 1000)%Z ->
  let s' := exec (gameLoop h) s in
  count is_UpdateFPS (trace s') = count is_UpdateFPS (trace s) /\
  fpsUpdateTime s' = fpsUpdateTime s /\
  frameCount s' = (frameCount s + 1)%Z /\
  settings s' = settings s /\ ui s' = ui s.
Proof.
  intros Hw. destruct h, s. cbn in Hw. crunch; finish.
Qed.

Lemma pass_closing_window (h : Host) (s : Game) :
  settings s <> None -> ui s <> None ->
  (perf_now h - fpsUpdateTime s >= 1000)%Z ->
  let s' := exec (gameLoop h) s in
  count is_UpdateFPS (trace s') =
    count is_UpdateFPS (trace s) + (if show_fps h then 1 else 0) /\
  fpsUpdateTime s' = perf_now h /\
  fps s' = (frameCount s + 1)%Z.
Proof.
  intros Hs Hu Hw. destruct h, s. cbn in Hs, Hu, Hw.
  destruct settings0, ui0; try congruence.
  crunch; finish.
Qed.

(** C6.  The frame counter hands the FPS figure to the UI once per
    sampling window, whatever the number of passes inside it, and only if
    the display option is on.  A window runs from the anchor
    [fpsUpdateTime] to the first pass that finds at least 1000 ms gone:
    the passes [hs] inside the window hand nothing over; the pass [h] that
    closes it hands the figure over exactly once when [showFPS] is set and
    not at all otherwise, the figure being the number of passes counted
    since the anchor, and the next window is anchored at that pass. *)
Theorem fps_handed_once_per_window (s : Game) (hs : list Host) (h : Host) :
  settings s <> None -> ui s <> None ->
  Forall (fun h' => (perf_now h' - fpsUpdateTime s < 1000)%Z) hs ->
  (perf_now h - fpsUpdateTime s >= 1000)%Z ->
  let s1 := passes hs s in
  let s2 := exec (gameLoop h) s1 in
  count is_UpdateFPS (trace s1) = count is_UpdateFPS (trace s) /\
  count is_UpdateFPS (trace s2) =
    count is_UpdateFPS (trace s) + (if show_fps h then 1 else 0) /\
  fpsUpdateTime s2 = perf_now h /\
  fps s2 = (frameCount s + Z.of_nat (List.length hs) + 1)%Z.
Proof.
  revert s. induction hs as [|a hs IH]; intros s Hs Hu Hin Hout.
  - cbn [passes List.length Z.of_nat].
    destruct (pass_closing_window h s Hs Hu Hout) as (Hc & Ha & Hf).
    repeat split; [exact Hc | exact Ha | rewrite Hf; lia].
  - inversion Hin as [|a' hs' Ha Hrest]; subst.
    destruct (pass_inside_window a s Ha) as (Hc & Hanchor & Hfc & Hset & Hui).
    cbn [passes].
    set (s1 := exec (gameLoop a) s) in *.
    assert (Hs1 : settings s1 <> None) by (rewrite Hset; exact Hs).
    assert (Hu1 : ui s1 <> None) by (rewrite Hui; exact Hu).
    assert (Hin1 : Forall (fun h' => (perf_now h' - fpsUpdateTime s1 < 1000)%Z) hs)
      by (rewrite Hanchor; exact Hrest).
    assert (Hout1 : (perf_now h - fpsUpdateTime s1 >= 1000)%Z)
      by (rewrite Hanchor; exact Hout).
    destruct (IH s1 Hs1 Hu1 Hin1 Hout1) as (I1 & I2 & I3 & I4).
    repeat split.
    + rewrite I1; exact Hc.
    + rewrite I2, Hc; reflexivity.
    + exact I3.
    + rewrite I4, Hfc. cbn [List.length]. lia.
Qed.

(** At time 3400 the window anchored at 3000 is still open after three
    passes; the pass at 4000 closes it. *)
Lemma fps_handed_once_per_window_witness :
  settings playing <> None /\ ui playing <> None /\
  count is_UpdateFPS
    (trace (exec (gameLoop (quietHost 4000))
              (passes [quietHost 3100; quietHost 3200; quietHost 3400] playing)))
  = count is_UpdateFPS (trace playing) + 1.
Proof.
  assert (Hs : settings playing <> None) by (vm_compute; discriminate).
  assert (Hu : ui playing <> None) by (vm_compute; discriminate).
  split; [exact Hs | split; [exact Hu |]].
  refine (proj1 (proj2 (fps_handed_once_per_window playing
            [quietHost 3100; quietHost 3200; quietHost 3400]
            (quietHost 4000) Hs Hu _ _))).
  - repeat constructor; vm_compute; reflexivity.
  - vm_compute; discriminate.
Defined.

(** A hand-over moves the anchor forward by at least one second. *)
Lemma pass_moves_anchor (h : Host) (s : Game) :
  settings s <> None -> ui s <> None ->
  let s' := exec (gameLoop h) s in
  settings s' <> None /\ ui s' <> None /\
  count is_UpdateFPS (trace s) <= count is_UpdateFPS (trace s') /\
  (1000 * Z.of_nat (count is_UpdateFPS (trace s')
                    - count is_UpdateFPS (trace s))
   <= fpsUpdateTime s' - fpsUpdateTime s)%Z.
Proof.
  intros Hs Hu. destruct h, s. cbn in Hs, Hu.
  destruct settings0, ui0; try congruence.
  crunch; finish.
Qed.

(** X16.  Rate of the FPS display (lines 360-371).  Over any run of frame
    passes, whatever their timestamps, each hand-over of the FPS figure
    moves the sampling anchor forward by at least 1000 ms: [n] hand-overs
    need the anchor to advance by at least [n] seconds. *)
Lemma fps_updates_bounded_by_time (hs : list Host) (s : Game) :
  settings s <> None -> ui s <> None ->
  let s' := passes hs s in
  count is_UpdateFPS (trace s) <= count is_UpdateFPS (trace s') /\
  (1000 * Z.of_nat (count is_UpdateFPS (trace s')
                    - count is_UpdateFPS (trace s))
   <= fpsUpdateTime s' - fpsUpdateTime s)%Z.
Proof.
  revert s. induction hs as [|h hs IH]; intros s Hs Hu.
  - cbn [passes]; cbv zeta. split; lia.
  - destruct (pass_moves_anchor h s Hs Hu) as (Hs1 & Hu1 & Hle & Hb).
    destruct (IH _ Hs1 Hu1) as (Hle' & Hb').
    cbn [passes] in *. cbv zeta in *. split; lia.
Qed.

(** ** The frame loop across quit, pause and resume *)

Ltac initial s H :=
  let Hu := fresh "Hu" in let Ha := fresh "Ha" in
  let Hs := fresh "Hs" in let Hm := fresh "Hm" in
  destruct H as (Hu & Ha & Hs & Hm);
  destruct s as [st cv rd wd pl u a se mp wk lt fc fp fa ii ir tr ni tk ls];
  cbn in Hu, Ha, Hs, Hm;
  destruct u, a, se, mp; try congruence.

(** A queued frame callback, once run, leaves the flag set and queues
    its successor, whatever the flag was. *)
Lemma frame_reschedules (h : Host) (s : Game) (n : nat) :
  initialized s -> tasks s FrameCallback = S n ->
  let s' := step h Frame s in
  initialized s' /\ isGameRunning s' = true /\
  tasks s' FrameCallback = S n /\
  count is_RAF (trace s') = S (count is_RAF (trace s)) /\
  lastTime s' = perf_now h /\
  state s' = state s /\ renderer s' = renderer s /\
  world s' = world s /\ player s' = player s.
Proof.
  intros Hi Hq. initial s Hi. destruct h. cbn in Hq.
  crunch; finish.
Qed.

Lemma returnToMenu_clears_flag (s : Game) :
  initialized s ->
  let q := exec returnToMenu s in
  initialized q /\ isGameRunning q = false /\
  tasks q FrameCallback = tasks s FrameCallback.
Proof.
  intros Hi. initial s Hi. crunch; finish.
Qed.

Lemma frames_keep_running (hs : list Host) (s : Game) (n : nat) :
  initialized s -> tasks s FrameCallback = S n ->
  let s' := frames hs s in
  tasks s' FrameCallback = S n /\
  count is_RAF (trace s') = count is_RAF (trace s) + List.length hs /\
  (hs <> [] -> isGameRunning s' = true).
Proof.
  revert s. induction hs as [|h hs IH]; intros s Hi Hq.
  - cbn. repeat split; [exact Hq | lia | congruence].
  - destruct (frame_reschedules h s n Hi Hq) as (Hi1 & Hr & Hq1 & Hc & _).
    unfold frames in *. cbn [map steps].
    destruct (IH (step h Frame s) Hi1 Hq1) as (J1 & J2 & J3).
    repeat split.
    + exact J1.
    + rewrite J2, Hc. cbn [List.length]. lia.
    + intros _. destruct hs as [|h' hs']; [exact Hr | apply J3; discriminate].
Qed.

(** C10.  [returnToMenu] clears [isGameRunning], but a frame callback
    that is still queued sets it again when it runs and queues its
    successor: after the quit every delivered frame executes a pass and
    leaves exactly as many callbacks queued as before, so the passes never
    end. *)
Theorem quit_with_queued_frame_restarts_loop
    (hs : list Host) (s : Game) (n : nat) :
  initialized s -> tasks s FrameCallback = S n ->
  let q := exec returnToMenu s in
  let s' := frames hs q in
  isGameRunning q = false /\
  tasks s' FrameCallback = S n /\
  count is_RAF (trace s') = count is_RAF (trace q) + List.length hs /\
  (hs <> [] -> isGameRunning s' = true).
Proof.
  intros Hi Hq.
  destruct (returnToMenu_clears_flag s Hi) as (Hi1 & Hf & Ht).
  split; [exact Hf |].
  apply frames_keep_running; [exact Hi1 | rewrite Ht; exact Hq].
Qed.

Lemma quit_with_queued_frame_restarts_loop_witness :
  initialized playing /\ tasks playing FrameCallback = 1 /\
  isGameRunning (exec returnToMenu playing) = false /\
  isGameRunning
    (frames [quietHost 5016; quietHost 5033] (exec returnToMenu playing))
  = true.
Proof.
  assert (Hi : initialized playing)
    by (unfold initialized; vm_compute; repeat split; discriminate).
  assert (Hq : tasks playing FrameCallback = 1) by (vm_compute; reflexivity).
  pose proof (quit_with_queued_frame_restarts_loop
                [quietHost 5016; quietHost 5033] playing 0 Hi Hq) as W.
  cbv zeta in W. destruct W as (W1 & _ & _ & W4).
  split; [exact Hi | split; [exact Hq | split; [exact W1 |]]].
  apply W4; discriminate.
Defined.

Lemma pause_leaves_loop (h : Host) (s : Game) :
  initialized s ->
  let p := step h (CallSetState PAUSED) s in
  initialized p /\ state p = PAUSED /\
  renderer p = renderer s /\ world p = world s /\ player p = player s /\
  tasks p FrameCallback = tasks s FrameCallback /\
  isGameRunning p = isGameRunning s.
Proof.
  intros Hi. initial s Hi. destruct h. crunch; finish.
Qed.

Lemma resume_starts_second_loop (h : Host) (s : Game) :
  initialized s ->
  let r := step h CallResumeGame s in
  state r = state s /\
  renderer r = renderer s /\ world r = world s /\ player r = player s /\
  tasks r FrameCallback = S (tasks s FrameCallback).
Proof.
  intros Hi. initial s Hi. destruct h. crunch; finish.
Qed.

(** C3, as the code behaves.  [pauseGame] does not touch the frame loop:
    after a pause in a play mode the queued callback is still queued, the
    next frame executes a pass and queues another, and [resumeGame] then
    starts a second loop beside the first.  The session objects are the
    same throughout, and [resumeGame] leaves the mode at [PAUSED]. *)
Theorem pause_does_not_stop_frames (h1 h2 h3 : Host) (s : Game) :
  initialized s ->
  state s = SINGLE_PLAYER \/ state s = MULTIPLAYER ->
  tasks s FrameCallback = 1 ->
  let p := step h1 (CallSetState PAUSED) s in
  let f := step h2 Frame p in
  let r := step h3 CallResumeGame f in
  state p = PAUSED /\
  tasks p FrameCallback = 1 /\
  count is_RAF (trace f) = S (count is_RAF (trace p)) /\
  lastTime f = perf_now h2 /\
  tasks f FrameCallback = 1 /\
  tasks r FrameCallback = 2 /\
  state r = PAUSED /\
  (renderer r, world r, player r) = (renderer s, world s, player s).
Proof.
  intros Hi _ Hq.
  destruct (pause_leaves_loop h1 s Hi) as (Hip & Hsp & Hr & Hw & Hp & Htp & _).
  rewrite Hq in Htp.
  destruct (frame_reschedules h2 _ 0 Hip Htp)
    as (Hif & _ & Htf & Hc & Hl & Hsf & Hrf & Hwf & Hpf).
  destruct (resume_starts_second_loop h3 _ Hif) as (Hsr & Hrr & Hwr & Hpr & Htr).
  cbv zeta.
  repeat split; try assumption.
  - rewrite Htr, Htf; reflexivity.
  - rewrite Hsr, Hsf; exact Hsp.
  - rewrite Hrr, Hwr, Hpr, Hrf, Hwf, Hpf, Hr, Hw, Hp; reflexivity.
Qed.

Lemma pause_does_not_stop_frames_witness :
  initialized playing /\ state playing = SINGLE_PLAYER /\
  tasks playing FrameCallback = 1 /\
  tasks (step (quietHost 4016) Frame
           (step (quietHost 4000) (CallSetState PAUSED) playing))
        FrameCallback = 1.
Proof.
  assert (Hi : initialized playing)
    by (unfold initialized; vm_compute; repeat split; discriminate).
  assert (Hs : state playing = SINGLE_PLAYER) by (vm_compute; reflexivity).
  assert (Hq : tasks playing FrameCallback = 1) by (vm_compute; reflexivity).
  pose proof (pause_does_not_stop_frames (quietHost 4000) (quietHost 4016)
                (quietHost 4100) playing Hi (or_introl Hs) Hq) as W.
  cbv zeta in W.
  split; [exact Hi | split; [exact Hs | split; [exact Hq |]]].
  exact (proj1 (proj2 (proj2 (proj2 (proj2 W))))).
Defined.

(** ** Worker messages *)

(** X17.  Routing of worker messages (lines 125-145).  With a live
    world, a message carrying its channel's tag is handed to the world
    through the method of that channel, with its payload; the handler
    returns normally and nothing else happens: apart from that one call,
    the controller is exactly as before. *)
Lemma worker_message_delivered (k : WorkerKind) (payload : Z) (w : World)
    (s : Game) :
  world s = Some w ->
  onWorkerMessage k (mkMsg (channel_tag k) payload) s =
    (Ok tt,
     set_trace
       (match k with
        | WorldGeneration => WorldReceiveChunk w payload
        | Physics => WorldReceivePhysicsUpdate w payload
        | Pathfinding => WorldReceivePath w payload
        end :: trace s) s).
Proof.
  intros Hw.
  destruct s as [st cv rd wd pl u a se mp wk lt fc fp fa ii ir tr ni tk ls].
  cbn in Hw. subst wd. destruct k; reflexivity.
Qed.

(** X18.  Foreign tags (lines 126, 134, 142).  A message whose tag is not
    the one its channel looks for is ignored, whether a world exists or
    not: a 'physicsUpdate' arriving on the world-generation channel is
    dropped, never rerouted. *)
Lemma worker_message_other_tag_ignored (k : WorkerKind) (m : WorkerMessage)
    (s : Game) :
  String.eqb (msg_type m) (channel_tag k) = false ->
  onWorkerMessage k m s = (Ok tt, s).
Proof.
  intros Ht. destruct k; cbn in Ht; unfold onWorkerMessage;
    rewrite Ht; reflexivity.
Qed.

(** C2, as the code behaves.  A message carrying its channel's tag while
    [this.world] is null makes the handler dereference null: it throws a
    TypeError instead of dropping the message.  The controller's fields
    are untouched, but the exception reaches the window's [error]
    listener, which shows an error to the user. *)
Theorem worker_message_without_world_throws
    (h : Host) (k : WorkerKind) (payload : Z) (s : Game) :
  world s = None -> listeners s = true -> ui s <> None ->
  let m := mkMsg (channel_tag k) payload in
  outcome (onWorkerMessage k m) s = Throw TypeError /\
  exec (onWorkerMessage k m) s = s /\
  trace (step h (WorkerMessageEvent k m) s) =
    ShowError "An error occurred. Please refresh the page."
      :: Uncaught TypeError :: trace s.
Proof.
  intros Hw Hl Hu.
  destruct s as [st cv rd wd pl u a se mp wk lt fc fp fa ii ir tr ni tk ls].
  cbn in Hw, Hl, Hu. subst wd ls. destruct u; [| congruence].
  destruct h, k; crunch; finish.
Qed.

Lemma worker_message_without_world_throws_witness :
  world atMenu = None /\ listeners atMenu = true /\ ui atMenu <> None /\
  outcome (onWorkerMessage WorldGeneration
             (mkMsg "chunkGenerated" 5)) atMenu = Throw TypeError.
Proof.
  assert (Hw : world atMenu = None) by (vm_compute; reflexivity).
  assert (Hl : listeners atMenu = true) by (vm_compute; reflexivity).
  assert (Hu : ui atMenu <> None) by (vm_compute; discriminate).
  split; [exact Hw | split; [exact Hl | split; [exact Hu |]]].
  exact (proj1 (worker_message_without_world_throws (quietHost 2500)
                  WorldGeneration 5 atMenu Hw Hl Hu)).
Defined.

(** ** Mode requests *)

Lemma setState_MENU_eq (h : Host) : setState h MENU = setState_MENU.
Proof. reflexivity. Qed.

Lemma setState_settles (h : Host) (m : GameState) (s : Game) :
  initialized s ->
  let s' := exec (setState h m) s in
  initialized s' /\ state s' = settles_in (h, m).
Proof.
  intros Hi. initial s Hi. destruct h, m.
  all: crunch; finish.
Qed.

Lemma last_default_irrelevant (A : Type) (l : list A) (a d d' : A) :
  last (a :: l) d = last (a :: l) d'.
Proof.
  revert a. induction l as [|b l IH]; intros a; [reflexivity |].
  change (last (b :: l) d = last (b :: l) d'). apply IH.
Qed.

Lemma last_cons_default (A : Type) (l : list A) (a d : A) :
  last (a :: l) d = last l a.
Proof.
  destruct l as [|b l]; [reflexivity |].
  change (last (b :: l) d = last (b :: l) a). apply last_default_irrelevant.
Qed.

(** C1, as the code behaves.  [setState] has no transition table: it
    assigns the requested mode whatever the current one is.  After any
    sequence of requests the mode is the one the last request settles in,
    which is the requested mode itself, or [MENU] when the request started
    a session whose construction threw. *)
Theorem setState_last_request (rs : list (Host * GameState)) (s : Game) :
  initialized s ->
  state (requests rs s) = last (map settles_in rs) (state s).
Proof.
  revert s. induction rs as [|[h m] rs IH]; intros s Hi; [reflexivity |].
  destruct (setState_settles h m s Hi) as (Hi1 & Hst).
  cbn [requests map]. rewrite (IH _ Hi1), Hst, last_cons_default.
  reflexivity.
Qed.

Lemma setState_last_request_witness :
  initialized atMenu /\
  state (requests [(quietHost 3000, SINGLE_PLAYER); (quietHost 4000, PAUSED);
                   (quietHost 5000, LOADING)] atMenu) = LOADING.
Proof.
  assert (Hi : initialized atMenu)
    by (unfold initialized; vm_compute; repeat split; discriminate).
  split; [exact Hi |].
  exact (setState_last_request
           [(quietHost 3000, SINGLE_PLAYER); (quietHost 4000, PAUSED);
            (quietHost 5000, LOADING)] atMenu Hi).
Defined.

(** C1 as stated fails: the specification's table has no entry from
    Loading to Paused, yet the request changes the mode. *)
Lemma setState_invalid_pair_counterexample :
  state loaded = LOADING /\
  spec_transition LOADING PAUSED = false /\
  state (exec (setState (quietHost 500) PAUSED) loaded) = PAUSED /\
  state (exec (setState (quietHost 500) PAUSED) loaded) <> state loaded.
Proof.
  vm_compute. repeat split; discriminate.
Qed.

(** ** Session entry *)







Lemma single_player_via_setState (h : Host) (s : Game) :
  initialized s -> entry_fails h SINGLE_PLAYER = false ->
  let s' := exec (setState h SINGLE_PLAYER) s in
  state s' = SINGLE_PLAYER /\ session_started h None "default" s s'.
Proof.
  intros Hi H. initial s Hi. destruct h. cbn in H. revert H.
  match goal with
  | |- ?Q -> let s' := ?X in @?P s' => change (Q -> Post P X)
  end.
  crunch; finish.
Qed.

Lemma single_player_direct (h : Host) (s : Game)
    (name : option string) (seed : option Z) (type : string) :
  initialized s -> entry_fails h SINGLE_PLAYER = false ->
  let s' := exec (startSinglePlayer h name seed type) s in
  state s' = state s /\ session_started h seed type s s'.
Proof.
  intros Hi H. initial s Hi. destruct h. cbn in H. revert H.
  match goal with
  | |- ?Q -> let s' := ?X in @?P s' => change (Q -> Post P X)
  end.
  crunch; finish.
Qed.

(** C5, as the code behaves.  From the menu, [setState(SINGLE_PLAYER)]
    makes the mode [SINGLE_PLAYER] and builds renderer, world and player,
    the player at the world's spawn point, and runs the first frame pass,
    which queues the next; but it calls [startSinglePlayer()] without
    arguments, so the world's seed is null and its type 'default'.  A
    seed reaches the world only through a direct call of
    [startSinglePlayer(name, seed, type)], which builds the same session
    around that seed and leaves the mode alone. *)
Theorem start_single_player_from_menu (h : Host) (s : Game)
    (name : option string) (seed : option Z) (type : string) :
  initialized s -> state s = MENU -> entry_fails h SINGLE_PLAYER = false ->
  let viaSetState := exec (setState h SINGLE_PLAYER) s in
  let direct := exec (startSinglePlayer h name seed type) s in
  state viaSetState = SINGLE_PLAYER /\
  session_started h None "default" s viaSetState /\
  state direct = MENU /\
  session_started h seed type s direct.
Proof.
  intros Hi Hm H.
  destruct (single_player_via_setState h s Hi H) as (A1 & A2).
  destruct (single_player_direct h s name seed type Hi H) as (B1 & B2).
  cbv zeta. rewrite Hm in B1. exact (conj A1 (conj A2 (conj B1 B2))).
Qed.

Lemma start_single_player_from_menu_witness :
  initialized atMenu /\ state atMenu = MENU /\
  entry_fails (quietHost 3000) SINGLE_PLAYER = false /\
  session_started (quietHost 3000) (Some 42%Z) "default" atMenu
    (exec (startSinglePlayer (quietHost 3000) None (Some 42%Z) "default") atMenu).
Proof.
  assert (Hi : initialized atMenu)
    by (unfold initialized; vm_compute; repeat split; discriminate).
  assert (Hm : state atMenu = MENU) by (vm_compute; reflexivity).
  assert (H : entry_fails (quietHost 3000) SINGLE_PLAYER = false)
    by (vm_compute; reflexivity).
  split; [exact Hi | split; [exact Hm | split; [exact H |]]].
  exact (proj2 (proj2 (proj2 (start_single_player_from_menu (quietHost 3000)
           atMenu None (Some 42%Z) "default" Hi Hm H)))).
Defined.

(** C5 as stated fails: neither request from the menu both sets the mode
    to SinglePlayer and builds the world from seed 42. *)
Lemma seeded_start_counterexample :
  state atMenu = MENU /\
  ~ started_with_seed 42
      (step (quietHost 3000) (CallSetState SINGLE_PLAYER) atMenu) /\
  ~ started_with_seed 42
      (step (quietHost 3000)
            (CallStartSinglePlayer None (Some 42%Z) "default") atMenu).
Proof.
  split; [vm_compute; reflexivity |].
  split; intros (Hst & w & Hw & Hseed).
  - vm_compute in Hw. injection Hw as <-. discriminate Hseed.
  - vm_compute in Hst. discriminate Hst.
Qed.

(** ** Persistence *)

Lemma saveGame_record (h : Host) (s : Game) (w : World) (p : Player)
    (ws : WorldSnapshot) (ps ss : Z) :
  world s = Some w -> player s = Some p -> settings s <> None ->
  world_save h w = Some ws -> player_save h p = Some ps ->
  settings_save h = Some ss ->
  let s1 := exec (saveGame h) s in
  trace s1 =
    StorageSaveGame (mkSaveRecord (Some ws) (Some ps) (Some ss) (date_now h))
      :: SettingsSave :: PlayerSave p :: WorldSave w :: trace s /\
  tasks s1 SavePromise = S (tasks s SavePromise) /\
  state s1 = state s.
Proof.
  intros Hw Hp Hs Hws Hps Hss.
  destruct s as [st cv rd wd pl u a se mp wk lt fc fp fa ii ir tr ni tk ls].
  destruct h. cbn in Hw, Hp, Hs, Hws, Hps, Hss. subst wd pl settings_save0.
  destruct se; [| congruence].
  crunch. rewrite Hws, Hps. finish.
Qed.

Lemma saveGame_returns (h : Host) (s : Game) :
  settings s <> None -> outcome (saveGame h) s = Ok tt.
Proof.
  intros Hs.
  destruct s as [st cv rd wd pl u a se mp wk lt fc fp fa ii ir tr ni tk ls].
  destruct h. cbn in Hs. destruct se; [| congruence].
  crunch; finish.
Qed.

Lemma save_rejection_reported (s : Game) :
  ui s <> None ->
  let s' := exec (saveGame_settled false) s in
  trace s' = ShowError "Failed to save game." :: trace s /\
  state s' = state s /\
  renderer s' = renderer s /\ world s' = world s /\ player s' = player s.
Proof.
  intros Hu.
  destruct s as [st cv rd wd pl u a se mp wk lt fc fp fa ii ir tr ni tk ls].
  cbn in Hu. destruct u; [| congruence].
  crunch; finish.
Qed.

Lemma save_settled_returns (stored : bool) (s : Game) :
  outcome (saveGame_settled stored) s = Ok tt.
Proof.
  destruct s as [st cv rd wd pl u a se mp wk lt fc fp fa ii ir tr ni tk ls].
  destruct stored; crunch; finish.
Qed.

(** C7.  With a live world and player, [saveGame] hands
    [StorageManager.saveGame] the record made of what [world.save()],
    [player.save()] and [settings.save()] returned, stamped with
    [Date.now()] read during the call; when the collaborators return
    snapshots, all three fields are non-null.  When the storage promise
    rejects, in whatever state [s2] the controller is by then, the [catch]
    callback shows an error and changes neither the mode nor the session,
    and nothing is thrown: both [saveGame] and the callbacks return
    normally. *)
Theorem saveGame_hands_record_to_storage (h : Host) (s s2 : Game)
    (w : World) (p : Player) (ws : WorldSnapshot) (ps ss : Z) :
  world s = Some w -> player s = Some p -> settings s <> None ->
  world_save h w = Some ws -> player_save h p = Some ps ->
  settings_save h = Some ss ->
  ui s2 <> None ->
  let r := mkSaveRecord (Some ws) (Some ps) (Some ss) (date_now h) in
  let s1 := exec (saveGame h) s in
  let s3 := exec (saveGame_settled false) s2 in
  outcome (saveGame h) s = Ok tt /\
  trace s1 =
    StorageSaveGame r :: SettingsSave :: PlayerSave p :: WorldSave w
      :: trace s /\
  sv_world r <> None /\ sv_player r <> None /\ sv_settings r <> None /\
  (date_now h <= sv_timestamp r)%Z /\
  tasks s1 SavePromise = S (tasks s SavePromise) /\
  outcome (saveGame_settled false) s2 = Ok tt /\
  trace s3 = ShowError "Failed to save game." :: trace s2 /\
  state s3 = state s2.
Proof.
  intros Hw Hp Hs Hws Hps Hss Hu.
  destruct (saveGame_record h s w p ws ps ss Hw Hp Hs Hws Hps Hss)
    as (T1 & T2 & _).
  destruct (save_rejection_reported s2 Hu) as (R1 & R2 & _).
  cbv zeta. cbn [sv_world sv_player sv_settings sv_timestamp].
  repeat split; try assumption; try discriminate; try lia.
  - apply saveGame_returns; exact Hs.
  - apply save_settled_returns.
Qed.

Lemma saveGame_hands_record_to_storage_witness :
  world playing <> None /\ player playing <> None /\
  settings playing <> None /\ ui playing <> None /\
  state (exec (saveGame_settled false) (exec (saveGame (quietHost 3500)) playing))
  = state (exec (saveGame (quietHost 3500)) playing).
Proof.
  set (w := mkWorld 8 worldSize chunkSize None "default" (Some 4)).
  set (p := mkPlayer 9 (mkPoint 0 64 0)).
  assert (Hw : world playing = Some w) by (vm_compute; reflexivity).
  assert (Hp : player playing = Some p) by (vm_compute; reflexivity).
  assert (Hs : settings playing <> None) by (vm_compute; discriminate).
  assert (Hu : ui (exec (saveGame (quietHost 3500)) playing) <> None)
    by (vm_compute; discriminate).
  assert (Hu0 : ui playing <> None) by (vm_compute; discriminate).
  pose proof (saveGame_hands_record_to_storage (quietHost 3500) playing
                (exec (saveGame (quietHost 3500)) playing) w p
                (mkWorldSnapshot None None "default" 7) 1 2
                Hw Hp Hs eq_refl eq_refl eq_refl Hu) as W.
  cbv zeta in W.
  split; [rewrite Hw; discriminate | split; [rewrite Hp; discriminate |]].
  split; [exact Hs | split; [exact Hu0 |]].
  exact (proj2 (proj2 (proj2 (proj2 (proj2 (proj2 (proj2 (proj2 (proj2 W))))))))).
Defined.

(** C8.  When the storage promise of [loadGame] resolves to no record,
    the callback shows 'Save file not found.' and does nothing else:
    renderer, world, player, mode and frame loop are as before, and
    nothing was constructed. *)
Theorem loadGame_absent_reports_not_found (h : Host) (saveId : Z) (s : Game) :
  ui s <> None ->
  let s' := step h (LoadSettled LoadAbsent) (exec (loadGame saveId) s) in
  trace s' =
    ShowError "Save file not found." :: StorageLoadGame saveId :: trace s /\
  renderer s' = renderer s /\ world s' = world s /\ player s' = player s /\
  state s' = state s /\ canvas s' = canvas s /\ nextId s' = nextId s /\
  isGameRunning s' = isGameRunning s /\
  tasks s' FrameCallback = tasks s FrameCallback /\
  tasks s' LoadPromise = tasks s LoadPromise.
Proof.
  intros Hu.
  destruct s as [st cv rd wd pl u a se mp wk lt fc fp fa ii ir tr ni tk ls].
  destruct h. cbn in Hu. destruct u; [| congruence].
  crunch; finish.
Qed.

Lemma loadGame_absent_reports_not_found_witness :
  ui atMenu <> None /\
  world (step (quietHost 2600) (LoadSettled LoadAbsent)
           (exec (loadGame 3) atMenu)) = world atMenu.
Proof.
  assert (Hu : ui atMenu <> None) by (vm_compute; discriminate).
  split; [exact Hu |].
  exact (proj1 (proj2 (proj2 (loadGame_absent_reports_not_found
                                (quietHost 2600) 3 atMenu Hu)))).
Defined.

(** ** The worker channels *)

Section WorkerFrame.

Variable k : WorkerKind.

Lemma keeps_refl (s : Game) : keeps k s s.
Proof. repeat split. Qed.

Lemma keeps_trans (s1 s2 s3 : Game) :
  keeps k s1 s2 -> keeps k s2 s3 -> keeps k s1 s3.
Proof.
  intros (A1 & A2 & A3 & A4 & A5 & A6 & A7 & A8)
         (B1 & B2 & B3 & B4 & B5 & B6 & B7 & B8).
  repeat split; etransitivity; eassumption.
Qed.

Lemma Keeps_ret (A : Type) (a : A) : Keeps k (ret a).
Proof. intros s. apply keeps_refl. Qed.

Lemma Keeps_throw (A : Type) (e : Err) : Keeps k (@throw A e).
Proof. intros s. apply keeps_refl. Qed.

Lemma Keeps_gets (A : Type) (f : Game -> A) : Keeps k (gets f).
Proof. intros s. apply keeps_refl. Qed.

Lemma Keeps_deref (A : Type) (o : option A) : Keeps k (deref o).
Proof. destruct o; intros s; apply keeps_refl. Qed.

Lemma Keeps_bind (A B : Type) (m : M A) (f : A -> M B) :
  Keeps k m -> (forall a, Keeps k (f a)) -> Keeps k (bind m f).
Proof.
  intros Hm Hf s. specialize (Hm s). unfold bind.
  destruct (m s) as [[a | e] s1]; cbn in *.
  - eapply keeps_trans; [exact Hm | apply Hf].
  - exact Hm.
Qed.

Lemma Keeps_when (b : bool) (m : M unit) : Keeps k m -> Keeps k (when b m).
Proof. destruct b; [trivial | intros _; apply Keeps_ret]. Qed.

Lemma Keeps_try_catch (body : M unit) (handler : Err -> M unit) :
  Keeps k body -> (forall e, Keeps k (handler e)) ->
  Keeps k (try_catch body handler).
Proof.
  intros Hb Hh s. specialize (Hb s). unfold try_catch.
  destruct (body s) as [[a | e] s1]; cbn in *.
  - exact Hb.
  - eapply keeps_trans; [exact Hb | apply Hh].
Qed.

Lemma keeps_traced (e : Effect) (s : Game) :
  is_NewWorker k e = false -> keeps k s (set_trace (e :: trace s) s).
Proof.
  intros He. repeat split. cbn [trace set_trace]. unfold count.
  cbn [filter]. rewrite He. reflexivity.
Qed.

Lemma Keeps_emit (e : Effect) : is_NewWorker k e = false -> Keeps k (emit e).
Proof. intros He s. apply keeps_traced, He. Qed.

Lemma Keeps_async (body : M unit) : Keeps k body -> Keeps k (async body).
Proof.
  intros Hb s. specialize (Hb s). unfold async.
  destruct (body s) as [[a | e] s1]; cbn in *.
  - exact Hb.
  - eapply keeps_trans; [exact Hb | apply keeps_traced; reflexivity].
Qed.

Lemma Keeps_modify (f : Game -> Game) :
  (forall s, keeps k s (f s)) -> Keeps k (modify f).
Proof. intros Hf s. apply Hf. Qed.

Lemma keeps_task (f : (Task -> nat) -> Task -> nat) (s : Game) :
  (forall q, f q SettingsAwait = q SettingsAwait) ->
  keeps k s (set_tasks (f (tasks s)) s).
Proof. intros Hf. repeat split. cbn [tasks set_tasks]. apply Hf. Qed.

Lemma Keeps_schedule (t : Task) :
  Task_eqb t SettingsAwait = false -> Keeps k (schedule t).
Proof.
  intros Ht s. apply (keeps_task (add_task t)).
  intros q. unfold add_task. rewrite Ht. reflexivity.
Qed.

Ltac keeps_with known :=
  repeat first
    [ assumption
    | known
    | apply Keeps_bind; [| intros ?]
    | apply Keeps_ret | apply Keeps_throw | apply Keeps_gets
    | apply Keeps_deref | apply Keeps_when
    | apply Keeps_try_catch; [| intros ?]
    | apply Keeps_async
    | apply Keeps_emit; reflexivity
    | apply Keeps_schedule; reflexivity
    | apply Keeps_modify; intros ?; repeat split; reflexivity
    | match goal with
      | |- Keeps _ (match ?x with _ => _ end) => destruct x
      end ].

Ltac keeps_tac := keeps_with fail.

Lemma Keeps_construct (h : Host) (c : Ctor) :
  is_worker c = false -> Keeps k (construct h c).
Proof.
  intros Hc. unfold construct, fresh.
  destruct c; try discriminate Hc; keeps_tac.
Qed.

Lemma Keeps_gameLoop (h : Host) : Keeps k (gameLoop h).
Proof. unfold gameLoop. keeps_tac. Qed.

Lemma Keeps_returnToMenu : Keeps k returnToMenu.
Proof. unfold returnToMenu. keeps_tac. Qed.

Lemma Keeps_setState_MENU : Keeps k setState_MENU.
Proof.
  unfold setState_MENU, setState_with.
  pose proof Keeps_returnToMenu. keeps_tac.
Qed.

Lemma Keeps_enterGame (h : Host) : Keeps k (enterGame h).
Proof. unfold enterGame. pose proof (Keeps_gameLoop h). keeps_tac. Qed.

Lemma Keeps_startSinglePlayer (h : Host) n sd ty :
  Keeps k (startSinglePlayer h n sd ty).
Proof.
  unfold startSinglePlayer, newWorld, newPlayer, showError.
  pose proof (Keeps_enterGame h). pose proof Keeps_setState_MENU.
  pose proof (Keeps_construct h CRenderer eq_refl).
  pose proof (Keeps_construct h CWorld eq_refl).
  pose proof (Keeps_construct h CPlayer eq_refl).
  keeps_tac.
Qed.

Lemma Keeps_startMultiplayer (h : Host) a : Keeps k (startMultiplayer h a).
Proof.
  unfold startMultiplayer, catchMultiplayer, showError.
  pose proof Keeps_setState_MENU.
  pose proof (Keeps_construct h CRenderer eq_refl).
  keeps_tac.
Qed.

Lemma Keeps_startMultiplayer_resume (h : Host) c :
  Keeps k (startMultiplayer_resume h c).
Proof.
  unfold startMultiplayer_resume, catchMultiplayer, newWorld, newPlayer,
    showError.
  pose proof (Keeps_enterGame h). pose proof Keeps_setState_MENU.
  pose proof (Keeps_construct h CWorld eq_refl).
  pose proof (Keeps_construct h CPlayer eq_refl).
  keeps_tac.
Qed.

Lemma Keeps_setState (h : Host) m : Keeps k (setState h m).
Proof.
  unfold setState, setState_with, pauseGame.
  pose proof (Keeps_startSinglePlayer h None None "default").
  pose proof (Keeps_startMultiplayer h None).
  pose proof Keeps_returnToMenu.
  keeps_tac.
Qed.

Lemma Keeps_handler (h : Host) (e : Event) :
  after_startup e = true -> Keeps k (handler h e).
Proof.
  intros He. destruct e; try discriminate He; cbn [handler].
  - apply Keeps_setState.
  - apply Keeps_startSinglePlayer.
  - apply Keeps_startMultiplayer.
  - unfold pauseGame. keeps_tac.
  - unfold resumeGame. pose proof (Keeps_gameLoop h). keeps_tac.
  - apply Keeps_returnToMenu.
  - unfold saveGame. keeps_tac.
  - unfold loadGame. keeps_tac.
  - unfold handleResize. keeps_tac.
  - unfold onBeforeUnload. keeps_tac.
  - unfold onWorkerMessage. keeps_tac.
  - apply Keeps_gameLoop.
  - apply Keeps_startMultiplayer_resume.
  - unfold saveGame_settled. keeps_tac.
  - unfold loadGame_settled.
    keeps_with ltac:(apply Keeps_startSinglePlayer).
  - unfold onMenuTimer, hideLoadingScreen.
    pose proof (Keeps_setState h MENU). keeps_tac.
Qed.

Lemma keeps_report (e : Err) (s : Game) : keeps k s (report e s).
Proof.
  unfold report.
  assert (K : keeps k s (set_trace (Uncaught e :: trace s) s))
    by (apply keeps_traced; reflexivity).
  destruct (listeners _); [| exact K].
  eapply keeps_trans; [exact K |].
  unfold exec, onWindowError, showError.
  match goal with |- keeps _ ?a (snd (?m ?a)) => assert (Km : Keeps k m) end.
  { keeps_tac. }
  apply Km.
Qed.

Lemma keeps_run (m : M unit) (s : Game) : Keeps k m -> keeps k s (run m s).
Proof.
  intros Hm. specialize (Hm s). unfold run.
  destruct (m s) as [[a | e] s1]; cbn in *.
  - exact Hm.
  - eapply keeps_trans; [exact Hm | apply keeps_report].
Qed.

(** No event after the startup touches the worker channels. *)
Lemma step_keeps (h : Host) (e : Event) (s : Game) :
  after_startup e = true -> keeps k s (step h e s).
Proof.
  intros He. pose proof (Keeps_handler h e He) as Kh. unfold step.
  destruct (delivers e) as [t |] eqn:Ed.
  - destruct (tasks s t); [apply keeps_refl |].
    eapply keeps_trans; [| apply keeps_run, Kh].
    apply (keeps_task (take_task t)).
    intros q. unfold take_task.
    destruct e; try discriminate He; try discriminate Ed;
      injection Ed as <-; reflexivity.
  - apply keeps_run, Kh.
Qed.

Lemma worker_inv_newGame (h : Host) : worker_inv k (newGame h).
Proof.
  destruct h, k; unfold worker_inv, newGame; crunch; finish.
Qed.

Lemma worker_inv_startup (h : Host) (b : bool) (s : Game) :
  worker_inv k s -> worker_inv k (step h (SettingsSettled b) s).
Proof.
  unfold worker_inv.
  destruct s as [st cv rd wd pl u a se mp wk lt fc fp fa ii ir tr ni tk ls].
  destruct wk as [wg wp wf], h, b, k; crunch; finish;
    try (intuition (lia || congruence)).
Qed.

Lemma worker_inv_step (h : Host) (e : Event) (s : Game) :
  worker_inv k s -> worker_inv k (step h e s).
Proof.
  destruct (after_startup e) eqn:He.
  - destruct (step_keeps h e s He) as (A & B & C & D & _).
    unfold worker_inv. rewrite A, B, C, D. trivial.
  - destruct e; try discriminate He. apply worker_inv_startup.
Qed.

Lemma worker_inv_steps (es : list (Host * Event)) (s : Game) :
  worker_inv k s -> worker_inv k (steps es s).
Proof.
  revert s. induction es as [|[h e] es IH]; intros s Hs; [exact Hs |].
  cbn [steps]. apply IH, worker_inv_step, Hs.
Qed.

End WorkerFrame.

(** X19.  Workers at startup (lines 61-93 and 122-146).  A startup in
    which no constructor throws leaves the controller initialised, with
    [isInitialized] set and each of the three workers constructed exactly
    once and stored in [this.workers]. *)
Lemma startup_creates_each_worker (h0 h1 : Host) (k : WorkerKind) :
  (forall c, ctor_throws h0 c = false) ->
  (forall c, ctor_throws h1 c = false) ->
  let s := step h1 (SettingsSettled true) (newGame h0) in
  initialized s /\ isInitialized s = true /\
  worker_of k (workers s) <> None /\
  count (is_NewWorker k) (trace s) = 1.
Proof.
  intros H0 H1.
  generalize (H0 CSettings) (H1 CAudio) (H1 CUI) (H1 CMultiplayer)
             (H1 (CWorker WorldGeneration)) (H1 (CWorker Physics))
             (H1 (CWorker Pathfinding)).
  clear H0 H1. destruct h0, h1, k; crunch; finish.
Qed.

(** Once initialised, the controller stays so. *)
Lemma initialized_step (h : Host) (e : Event) (s : Game) :
  initialized s -> initialized (step h e s).
Proof.
  intros Hi. destruct (after_startup e) eqn:He.
  - destruct (step_keeps WorldGeneration h e s He)
      as (_ & _ & _ & _ & U & A & S & M).
    unfold initialized. rewrite U, A, S, M. exact Hi.
  - destruct e as [| | | | | | | | | | | | | | | b |]; try discriminate He.
    initial s Hi. destruct h, b; crunch; finish.
Qed.

(** X20.  The long-lived collaborators stay (whole class).  Once the UI,
    audio, settings and multiplayer managers exist, no sequence of events,
    whatever fails in it, sets any of them back to null. *)
Lemma initialized_steps (es : list (Host * Event)) (s : Game) :
  initialized s -> initialized (steps es s).
Proof.
  revert s. induction es as [|[h e] es IH]; intros s Hi; [exact Hi |].
  cbn [steps]. apply IH, initialized_step, Hi.
Qed.

(** A clean startup builds the worker of kind [k], once, and leaves no
    continuation of [init] pending. *)
Lemma clean_startup_builds_worker (h0 h1 : Host) (k : WorkerKind) :
  init_fails h0 h1 true = false ->
  let s := step h1 (SettingsSettled true) (newGame h0) in
  worker_of k (workers s) <> None /\
  count (is_NewWorker k) (trace s) = 1 /\
  tasks s SettingsAwait = 0.
Proof.
  intros H.
  match goal with |- let s' := ?X in @?P s' => change (Post P X) end.
  revert H. unfold init_fails. destruct h0, h1, k; crunch; finish.
Qed.

(** With no continuation of [init] pending, no run touches the workers. *)
Lemma workers_fixed_after_startup (k : WorkerKind)
    (es : list (Host * Event)) (s : Game) :
  tasks s SettingsAwait = 0 ->
  workers (steps es s) = workers s /\
  count (is_NewWorker k) (trace (steps es s))
  = count (is_NewWorker k) (trace s) /\
  tasks (steps es s) SettingsAwait = 0.
Proof.
  revert s. induction es as [|[h e] es IH]; intros s Hq.
  - repeat split. exact Hq.
  - cbn [steps].
    assert (K : keeps k s (step h e s)).
    { destruct (after_startup e) eqn:He.
      - apply step_keeps, He.
      - destruct e; try discriminate He.
        unfold step. cbn [delivers]. rewrite Hq. apply keeps_refl. }
    destruct K as (A & B & C & _).
    destruct (IH (step h e s)) as (I1 & I2 & I3).
    + rewrite C. exact Hq.
    + rewrite I1, I2, A, B. repeat split. exact I3.
Qed.

(** C9.  A startup in which nothing fails constructs each of the three
    workers, once, and stores it in [this.workers]; in every run of the
    page after it, whatever the events, [this.workers] is the object the
    startup left and the worker has still been constructed exactly once:
    no mode request and no teardown to the menu constructs a worker or
    changes [this.workers], and the code has no call that terminates one.
    In any run from [new BlockCraftAdventure()], clean startup or not,
    each worker is constructed at most once, exists once [init] has
    completed, was constructed exactly once if it exists, and is left
    alone by every event after the startup. *)
Theorem workers_created_once_and_kept
    (g0 h0 h1 h : Host) (es es1 : list (Host * Event)) (e : Event)
    (k : WorkerKind) :
  init_fails h0 h1 true = false ->
  after_startup e = true ->
  let started := step h1 (SettingsSettled true) (newGame h0) in
  let s := steps es1 started in
  let s' := step h e s in
  let any := steps es (newGame g0) in
  worker_of k (workers started) <> None /\
  count (is_NewWorker k) (trace started) = 1 /\
  workers s = workers started /\
  count (is_NewWorker k) (trace s) = 1 /\
  workers s' = workers started /\
  count (is_NewWorker k) (trace s') = 1 /\
  count (is_NewWorker k) (trace any) <= 1 /\
  (isInitialized any = true -> worker_of k (workers any) <> None) /\
  (worker_of k (workers any) <> None ->
   count (is_NewWorker k) (trace any) = 1) /\
  workers (step h e any) = workers any /\
  count (is_NewWorker k) (trace (step h e any))
  = count (is_NewWorker k) (trace any).
Proof.
  intros Hc He. cbv zeta.
  destruct (clean_startup_builds_worker h0 h1 k Hc) as (S1 & S2 & S3).
  destruct (workers_fixed_after_startup k es1 _ S3) as (R1 & R2 & _).
  destruct (step_keeps k h e
              (steps es1 (step h1 (SettingsSettled true) (newGame h0))) He)
    as (T1 & T2 & _).
  destruct (worker_inv_steps k es (newGame g0) (worker_inv_newGame k g0))
    as (I1 & I2 & I3).
  destruct (step_keeps k h e (steps es (newGame g0)) He) as (A & B & _).
  repeat split; try assumption.
  - rewrite R2; exact S2.
  - rewrite T1; exact R1.
  - rewrite T2, R2; exact S2.
  - lia.
Qed.

Lemma workers_created_once_and_kept_witness :
  let session :=
    [(quietHost 2010, TimerFired);
     (quietHost 3000, CallSetState SINGLE_PLAYER)] in
  let started :=
    step (quietHost 10) (SettingsSettled true) (newGame (quietHost 0)) in
  init_fails (quietHost 0) (quietHost 10) true = false /\
  after_startup (CallSetState MENU) = true /\
  worker_of Physics (workers started) <> None /\
  workers (step (quietHost 6000) (CallSetState MENU) (steps session started))
  = workers started.
Proof.
  cbv zeta.
  assert (Hc : init_fails (quietHost 0) (quietHost 10) true = false)
    by (vm_compute; reflexivity).
  pose proof (workers_created_once_and_kept
                (quietHost 0) (quietHost 0) (quietHost 10) (quietHost 6000)
                []
                [(quietHost 2010, TimerFired);
                 (quietHost 3000, CallSetState SINGLE_PLAYER)]
                (CallSetState MENU) Physics Hc eq_refl) as W.
  cbv zeta in W. destruct W as (W1 & _ & _ & _ & W5 & _).
  exact (conj Hc (conj eq_refl (conj W1 W5))).
Defined.

(** ** Further properties of the controller *)

(** X1.  Teardown order (lines 317-349).  With a live renderer and world,
    [returnToMenu] clears the running flag, hides the game screen and the
    mobile controls, stops the music, disposes the renderer, then the
    world, disconnects the multiplayer manager and shows the main menu, in
    that order; renderer and world are null afterwards, the player and the
    mode are as before. *)
Theorem teardown_order (s : Game) (r : Renderer) (w : World) :
  initialized s -> renderer s = Some r -> world s = Some w ->
  let q := exec returnToMenu s in
  trace q =
    ShowMainMenu :: MpDisconnect :: WorldDispose w :: RendererDispose r
      :: StopMusic :: Hidden "mobile-controls" true
      :: Hidden "game-screen" true :: trace s /\
  isGameRunning q = false /\ renderer q = None /\ world q = None /\
  player q = player s /\ state q = state s.
Proof.
  intros Hi Hr Hw. initial s Hi. cbn in Hr, Hw. subst rd wd.
  crunch; finish.
Qed.

Lemma teardown_order_witness :
  initialized playing /\
  renderer (exec returnToMenu playing) = None /\
  world (exec returnToMenu playing) = None.
Proof.
  assert (Hi : initialized playing)
    by (unfold initialized; vm_compute; repeat split; discriminate).
  pose proof (teardown_order playing (mkRenderer 7)
                (mkWorld 8 worldSize chunkSize None "default" (Some 4))
                Hi eq_refl eq_refl) as W.
  cbv zeta in W. destruct W as (_ & _ & Wr & Ww & _).
  exact (conj Hi (conj Wr Ww)).
Defined.

(** X2.  Teardown is safe to repeat (lines 328-338).  A second
    [returnToMenu] finds renderer and world null and disposes nothing; it
    still hides the screens, stops the music, disconnects and shows the
    menu, and returns normally. *)
Theorem teardown_twice_disposes_once (s : Game) :
  initialized s ->
  let q := exec returnToMenu s in
  let q' := exec returnToMenu q in
  outcome returnToMenu q = Ok tt /\
  trace q' =
    ShowMainMenu :: MpDisconnect :: StopMusic
      :: Hidden "mobile-controls" true :: Hidden "game-screen" true
      :: trace q /\
  count is_Dispose (trace q') = count is_Dispose (trace q) /\
  renderer q' = None /\ world q' = None /\
  player q' = player s /\ state q' = state s.
Proof.
  intros Hi. initial s Hi. cbv zeta. crunch; finish.
Qed.

Lemma teardown_twice_disposes_once_witness :
  initialized playing /\
  count is_Dispose (trace (exec returnToMenu (exec returnToMenu playing)))
  = count is_Dispose (trace (exec returnToMenu playing)).
Proof.
  assert (Hi : initialized playing)
    by (unfold initialized; vm_compute; repeat split; discriminate).
  split; [exact Hi |].
  exact (proj1 (proj2 (proj2 (teardown_twice_disposes_once playing Hi)))).
Defined.

(** X3.  Order within a frame pass (lines 373-393).  With renderer, world
    and player live, the last five calls of a pass are, in this order:
    [world.update(dt)], [player.update(dt, world)],
    [renderer.render(world, player, now / 1000)], [ui.update(player,
    world)] and [requestAnimationFrame], with [dt] the time since the
    previous pass in seconds.  The pass changes neither the mode nor the
    session objects. *)
Theorem frame_pass_order (h : Host) (s : Game)
    (r : Renderer) (w : World) (p : Player) :
  settings s <> None -> ui s <> None ->
  renderer s = Some r -> world s = Some w -> player s = Some p ->
  let dt := Qmake (perf_now h - lastTime s) 1000 in
  let s' := exec (gameLoop h) s in
  firstn 5 (trace s') =
    [RequestAnimationFrame; UiUpdate (Some p) (Some w);
     RendererRender r (Some w) (Some p) (Qmake (perf_now h) 1000);
     PlayerUpdate p dt (Some w); WorldUpdate w dt] /\
  lastTime s' = perf_now h /\
  state s' = state s /\ renderer s' = Some r /\ world s' = Some w /\
  player s' = Some p.
Proof.
  intros Hs Hu Hr Hw Hp.
  destruct s as [st cv rd wd pl u a se mp wk lt fc fp fa ii ir tr ni tk ls].
  destruct h. cbn in Hs, Hu, Hr, Hw, Hp. subst rd wd pl.
  destruct se, u; try congruence.
  cbv zeta. crunch; finish.
Qed.

Lemma frame_pass_order_witness :
  settings playing <> None /\ ui playing <> None /\
  lastTime (exec (gameLoop (quietHost 3016)) playing) = 3016%Z.
Proof.
  assert (Hs : settings playing <> None) by (vm_compute; discriminate).
  assert (Hu : ui playing <> None) by (vm_compute; discriminate).
  pose proof (frame_pass_order (quietHost 3016) playing (mkRenderer 7)
                (mkWorld 8 worldSize chunkSize None "default" (Some 4))
                (mkPlayer 9 (mkPoint 0 64 0))
                Hs Hu eq_refl eq_refl eq_refl) as W.
  cbv zeta in W. destruct W as (_ & Wl & _).
  exact (conj Hs (conj Hu Wl)).
Defined.

(** X4.  A frame after the quit (lines 336-338 and 374-388).
    [returnToMenu] clears the world but not the player, so a frame
    callback that was still queued runs a pass on the stale player: it
    calls [player.update(dt, null)] and [ui.update(player, null)], with no
    world update and no render. *)
Theorem frame_after_quit_updates_stale_player
    (h : Host) (s : Game) (p : Player) (n : nat) :
  initialized s -> player s = Some p -> tasks s FrameCallback = S n ->
  let dt := Qmake (perf_now h - lastTime s) 1000 in
  let s' := step h Frame (exec returnToMenu s) in
  firstn 3 (trace s') =
    [RequestAnimationFrame; UiUpdate (Some p) None; PlayerUpdate p dt None] /\
  world s' = None /\ renderer s' = None /\ isGameRunning s' = true.
Proof.
  intros Hi Hp Hq. initial s Hi. destruct h. cbn in Hp, Hq. subst pl.
  cbv zeta. crunch; finish.
Qed.

Lemma frame_after_quit_updates_stale_player_witness :
  initialized playing /\ tasks playing FrameCallback = 1 /\
  isGameRunning (step (quietHost 5016) Frame (exec returnToMenu playing))
  = true.
Proof.
  assert (Hi : initialized playing)
    by (unfold initialized; vm_compute; repeat split; discriminate).
  assert (Hq : tasks playing FrameCallback = 1) by (vm_compute; reflexivity).
  pose proof (frame_after_quit_updates_stale_player (quietHost 5016) playing
                (mkPlayer 9 (mkPoint 0 64 0)) 0 Hi eq_refl Hq) as W.
  cbv zeta in W. destruct W as (_ & _ & _ & Wr).
  exact (conj Hi (conj Hq Wr)).
Defined.

(** X5.  Saving without a session (lines 396-397).  When the world or the
    player is missing, [saveGame] does nothing at all: no snapshot is
    taken, storage is not called, and the user gets no message. *)
Theorem saveGame_without_session_does_nothing (h : Host) (s : Game) :
  world s = None \/ player s = None ->
  saveGame h s = (Ok tt, s).
Proof.
  intros H.
  destruct s as [st cv rd wd pl u a se mp wk lt fc fp fa ii ir tr ni tk ls].
  cbn in H. unfold saveGame, bind, gets. cbn.
  destruct H as [-> | ->]; [reflexivity | destruct wd; reflexivity].
Qed.

Lemma saveGame_without_session_does_nothing_witness :
  world atMenu = None /\
  saveGame (quietHost 2500) atMenu = (Ok tt, atMenu).
Proof.
  assert (Hw : world atMenu = None) by (vm_compute; reflexivity).
  split; [exact Hw |].
  exact (saveGame_without_session_does_nothing (quietHost 2500) atMenu
           (or_introl Hw)).
Defined.

(** X6.  A failed startup (lines 61-98).  When [init] fails, the
    controller stays in [LOADING] for good: the menu timer is never set and
    [isInitialized] stays false.  The [catch] block calls
    [this.showError], which needs the UI: the message is shown once if the
    UI manager was already constructed, and not at all otherwise. *)
Theorem failed_startup_stays_loading (h0 h1 : Host) (loaded : bool) :
  init_fails h0 h1 loaded = true ->
  let s := step h1 (SettingsSettled loaded) (newGame h0) in
  state s = LOADING /\ tasks s MenuTimer = 0 /\ isInitialized s = false /\
  count is_ShowError (trace s) =
    match ui s with Some _ => 1 | None => 0 end.
Proof.
  intros H.
  match goal with |- let s' := ?X in @?P s' => change (Post P X) end.
  revert H. unfold init_fails. destruct h0, h1, loaded; crunch; finish.
Qed.

Lemma failed_startup_stays_loading_witness :
  init_fails (quietHost 0) (quietHost 10) false = true /\
  state (step (quietHost 10) (SettingsSettled false) (newGame (quietHost 0)))
  = LOADING /\
  count is_ShowError
    (trace (step (quietHost 10) (SettingsSettled false)
              (newGame (quietHost 0)))) = 0.
Proof.
  assert (H : init_fails (quietHost 0) (quietHost 10) false = true)
    by (vm_compute; reflexivity).
  pose proof (failed_startup_stays_loading (quietHost 0) (quietHost 10)
                false H) as W.
  cbv zeta in W. destruct W as (W1 & _ & _ & W4).
  split; [exact H | split; [exact W1 |]].
  rewrite W4. vm_compute. reflexivity.
Defined.

(** X7.  A clean startup (lines 61-93 and 176-197).  When nothing fails,
    the controller waits in [LOADING] with the listeners registered and the
    menu timer set; when the timer fires, the loading screen is hidden,
    [setState(MENU)] runs the teardown on the empty session and the main
    menu is shown, twice: once by [returnToMenu] and once by the timer
    callback. *)
Theorem startup_then_timer_reaches_menu (h0 h1 h2 : Host) :
  init_fails h0 h1 true = false ->
  let s := step h1 (SettingsSettled true) (newGame h0) in
  let m := step h2 TimerFired s in
  state s = LOADING /\ tasks s MenuTimer = 1 /\ listeners s = true /\
  state m = MENU /\ tasks m MenuTimer = 0 /\ initialized m /\
  firstn 2 (trace m) = [ShowMainMenu; ShowMainMenu] /\
  count is_Dispose (trace m) = 0 /\
  renderer m = None /\ world m = None /\ player m = None.
Proof.
  intros H.
  match goal with |- let s' := ?X in @?P s' => change (Post P X) end.
  revert H. unfold init_fails. destruct h0, h1, h2; crunch; finish.
Qed.

Lemma startup_then_timer_reaches_menu_witness :
  init_fails (quietHost 0) (quietHost 10) true = false /\
  state (step (quietHost 2010) TimerFired
           (step (quietHost 10) (SettingsSettled true) (newGame (quietHost 0))))
  = MENU.
Proof.
  assert (H : init_fails (quietHost 0) (quietHost 10) true = false)
    by (vm_compute; reflexivity).
  split; [exact H |].
  exact (proj1 (proj2 (proj2 (proj2 (startup_then_timer_reaches_menu
           (quietHost 0) (quietHost 10) (quietHost 2010) H))))).
Defined.

(** Closing the goals about what the trace holds. *)
Ltac traced :=
  finish;
  try (do 2 eexists; repeat split; try reflexivity);
  try (repeat first [left; reflexivity | right]);
  try congruence.

(** X8.  Loading a stored game (lines 417-433).  With a record found and
    no constructor throwing, [loadGame] applies the stored settings,
    starts a single-player session from the stored world's seed and type,
    then hands the stored player and world snapshots to the player and
    world it has just built, and reports success.  It never assigns the
    mode, which stays what it was. *)
Theorem loadGame_found_restores_session
    (h : Host) (s : Game) (d : SaveRecord) (ws : WorldSnapshot) :
  initialized s -> sv_world d = Some ws ->
  entry_fails h SINGLE_PLAYER = false ->
  let s' := exec (loadGame_settled h (LoadFound d)) s in
  state s' = state s /\
  session_started h (ws_seed ws) (ws_type ws) s s' /\
  In (SettingsLoad (sv_settings d)) (trace s') /\
  count is_ShowError (trace s') = count is_ShowError (trace s) /\
  exists w p,
    world s' = Some w /\ player s' = Some p /\
    firstn 3 (trace s') =
      [ShowMessage "Game loaded successfully!"; WorldLoad w (Some ws);
       PlayerLoad p (sv_player d)].
Proof.
  intros Hi Hw H. initial s Hi. destruct d as [dw dp dse dt].
  cbn in Hw. subst dw.
  match goal with |- let s' := ?X in @?P s' => change (Post P X) end.
  revert H. destruct h. cbn [entry_fails ctor_throws].
  crunch; traced.
Qed.

Lemma loadGame_found_restores_session_witness :
  initialized atMenu /\
  entry_fails (quietHost 2700) SINGLE_PLAYER = false /\
  state (exec (loadGame_settled (quietHost 2700)
                 (LoadFound (mkSaveRecord
                    (Some (mkWorldSnapshot None (Some 42%Z) "flat" 7%Z))
                    (Some 1%Z) (Some 2%Z) 99%Z))) atMenu)
  = state atMenu.
Proof.
  assert (Hi : initialized atMenu)
    by (unfold initialized; vm_compute; repeat split; discriminate).
  assert (H : entry_fails (quietHost 2700) SINGLE_PLAYER = false)
    by (vm_compute; reflexivity).
  split; [exact Hi | split; [exact H |]].
  exact (proj1 (loadGame_found_restores_session (quietHost 2700) atMenu
                  (mkSaveRecord
                     (Some (mkWorldSnapshot None (Some 42%Z) "flat" 7%Z))
                     (Some 1%Z) (Some 2%Z) 99%Z)
                  (mkWorldSnapshot None (Some 42%Z) "flat" 7%Z)
                  Hi eq_refl H)).
Defined.

(** X9.  Loading when the session cannot be built (lines 424-441).
    [startSinglePlayer] is not awaited and handles its own failure by
    falling back to the menu; [loadGame] goes on, dereferences the missing
    player or world, and its [catch] reports a second error.  The user
    sees 'Failed to start game.' and then 'Failed to load game.', the mode
    is [MENU], and no renderer or world is left. *)
Theorem loadGame_found_construction_fails
    (h : Host) (s : Game) (d : SaveRecord) (ws : WorldSnapshot) :
  initialized s -> sv_world d = Some ws ->
  entry_fails h SINGLE_PLAYER = true ->
  let s' := exec (loadGame_settled h (LoadFound d)) s in
  state s' = MENU /\ renderer s' = None /\ world s' = None /\
  count is_ShowError (trace s') = S (S (count is_ShowError (trace s))) /\
  firstn 1 (trace s') = [ShowError "Failed to load game."].
Proof.
  intros Hi Hw H. initial s Hi. destruct d as [dw dp dse dt].
  cbn in Hw. subst dw.
  match goal with |- let s' := ?X in @?P s' => change (Post P X) end.
  revert H. destruct h. cbn [entry_fails ctor_throws].
  crunch; finish.
Qed.

Lemma loadGame_found_construction_fails_witness :
  initialized atMenu /\
  entry_fails (worldlessHost 2700) SINGLE_PLAYER = true /\
  state (exec (loadGame_settled (worldlessHost 2700)
                 (LoadFound (mkSaveRecord
                    (Some (mkWorldSnapshot None (Some 42%Z) "flat" 7%Z))
                    (Some 1%Z) (Some 2%Z) 99%Z))) atMenu)
  = MENU.
Proof.
  assert (Hi : initialized atMenu)
    by (unfold initialized; vm_compute; repeat split; discriminate).
  assert (H : entry_fails (worldlessHost 2700) SINGLE_PLAYER = true)
    by (vm_compute; reflexivity).
  split; [exact Hi | split; [exact H |]].
  exact (proj1 (loadGame_found_construction_fails (worldlessHost 2700) atMenu
                  (mkSaveRecord
                     (Some (mkWorldSnapshot None (Some 42%Z) "flat" 7%Z))
                     (Some 1%Z) (Some 2%Z) 99%Z)
                  (mkWorldSnapshot None (Some 42%Z) "flat" 7%Z)
                  Hi eq_refl H)).
Defined.

(** X10.  A load that yields nothing usable (lines 419-441).  When the
    storage promise rejects, only 'Failed to load game.' is shown.  When
    it resolves to a record without a world snapshot, the stored settings
    have already been applied before reading the world's name throws, and
    the same message follows.  In both cases no session is built and the
    mode is unchanged. *)
Theorem loadGame_failure_reported (h : Host) (s : Game) (d : SaveRecord) :
  initialized s -> sv_world d = None ->
  let a := exec (loadGame_settled h LoadRejected) s in
  let b := exec (loadGame_settled h (LoadFound d)) s in
  trace a = ShowError "Failed to load game." :: trace s /\
  trace b =
    ShowError "Failed to load game." :: SettingsLoad (sv_settings d)
      :: trace s /\
  (state a, renderer a, world a, player a, nextId a) =
    (state s, renderer s, world s, player s, nextId s) /\
  (state b, renderer b, world b, player b, nextId b) =
    (state s, renderer s, world s, player s, nextId s).
Proof.
  intros Hi Hw. initial s Hi. destruct d as [dw dp dse dt].
  cbn in Hw. subst dw. destruct h. cbv zeta. crunch; finish.
Qed.

Lemma loadGame_failure_reported_witness :
  initialized atMenu /\
  trace (exec (loadGame_settled (quietHost 2700) LoadRejected) atMenu)
  = ShowError "Failed to load game." :: trace atMenu.
Proof.
  assert (Hi : initialized atMenu)
    by (unfold initialized; vm_compute; repeat split; discriminate).
  split; [exact Hi |].
  exact (proj1 (loadGame_failure_reported (quietHost 2700) atMenu
                  (mkSaveRecord None None None 0%Z) Hi eq_refl)).
Defined.

(** X11.  Save, then load (lines 396-406 and 417-433).  The record that
    [saveGame] hands to storage, loaded back, rebuilds the world from the
    seed and type kept in the world snapshot and hands [world.load] and
    [player.load] exactly what [world.save()] and [player.save()] had
    returned, and [settings.load] what [settings.save()] had returned. *)
Theorem save_then_load_round_trip
    (h1 h2 : Host) (s s2 : Game) (w : World) (p : Player)
    (ws : WorldSnapshot) :
  world s = Some w -> player s = Some p -> settings s <> None ->
  world_save h1 w = Some ws ->
  initialized s2 -> entry_fails h2 SINGLE_PLAYER = false ->
  let d := mkSaveRecord (Some ws) (player_save h1 p) (settings_save h1)
                        (date_now h1) in
  let s' := exec (loadGame_settled h2 (LoadFound d)) s2 in
  firstn 1 (trace (exec (saveGame h1) s)) = [StorageSaveGame d] /\
  option_map w_seed (world s') = Some (ws_seed ws) /\
  option_map w_type (world s') = Some (ws_type ws) /\
  In (SettingsLoad (settings_save h1)) (trace s') /\
  exists w' p',
    world s' = Some w' /\ player s' = Some p' /\
    firstn 3 (trace s') =
      [ShowMessage "Game loaded successfully!"; WorldLoad w' (Some ws);
       PlayerLoad p' (player_save h1 p)].
Proof.
  intros Hw Hp Hs Hws Hi H. cbv zeta. split.
  - destruct s as [st cv rd wd pl u a se mp wk lt fc fp fa ii ir tr ni tk ls].
    destruct h1. cbn in Hw, Hp, Hs, Hws. subst wd pl.
    destruct se; [| congruence].
    crunch. rewrite Hws. reflexivity.
  - clear Hw Hp Hs Hws. initial s2 Hi.
    match goal with
    | |- context [exec ?m ?x] =>
        pattern (exec m x);
        match goal with |- ?P _ => change (Post P (exec m x)) end
    end.
    revert H. destruct h2. cbn [entry_fails ctor_throws].
    crunch; traced.
Qed.

Lemma save_then_load_round_trip_witness :
  world playing <> None /\ initialized atMenu /\
  option_map w_type
    (world (exec (loadGame_settled (quietHost 7000)
                    (LoadFound (mkSaveRecord
                       (Some (mkWorldSnapshot None None "default" 7%Z))
                       (Some 1%Z) (Some 2%Z) 1700000003500%Z))) atMenu))
  = Some "default"%string.
Proof.
  set (w := mkWorld 8 worldSize chunkSize None "default" (Some 4)).
  set (p := mkPlayer 9 (mkPoint 0 64 0)).
  assert (Hw : world playing = Some w) by (vm_compute; reflexivity).
  assert (Hp : player playing = Some p) by (vm_compute; reflexivity).
  assert (Hs : settings playing <> None) by (vm_compute; discriminate).
  assert (Hi : initialized atMenu)
    by (unfold initialized; vm_compute; repeat split; discriminate).
  assert (H : entry_fails (quietHost 7000) SINGLE_PLAYER = false)
    by (vm_compute; reflexivity).
  pose proof (save_then_load_round_trip (quietHost 3500) (quietHost 7000)
                playing atMenu w p
                (mkWorldSnapshot None None "default" 7%Z)
                Hw Hp Hs eq_refl Hi H) as W.
  cbv zeta in W. destruct W as (_ & _ & Wt & _).
  split; [rewrite Hw; discriminate | split; [exact Hi | exact Wt]].
Defined.

(** X12.  Starting over a live session (lines 199-223).
    [startSinglePlayer] never disposes anything: a renderer and a world
    that were live are replaced without [dispose()], and the frame loop it
    starts runs beside the callbacks already queued. *)
Theorem start_over_live_session_disposes_nothing
    (h : Host) (s : Game) (r : Renderer) (w : World)
    (name : option string) (seed : option Z) (type : string) :
  initialized s -> renderer s = Some r -> world s = Some w ->
  entry_fails h SINGLE_PLAYER = false ->
  let s' := exec (startSinglePlayer h name seed type) s in
  count is_Dispose (trace s') = count is_Dispose (trace s) /\
  option_map w_seed (world s') = Some seed /\
  tasks s' FrameCallback = S (tasks s FrameCallback).
Proof.
  intros Hi Hr Hw H. initial s Hi. cbn in Hr, Hw. subst rd wd.
  match goal with |- let s' := ?X in @?P s' => change (Post P X) end.
  revert H. destruct h. cbn [entry_fails ctor_throws].
  crunch; finish.
Qed.

Lemma start_over_live_session_disposes_nothing_witness :
  initialized playing /\
  entry_fails (quietHost 3500) SINGLE_PLAYER = false /\
  tasks (exec (startSinglePlayer (quietHost 3500) None (Some 5%Z) "default")
           playing) FrameCallback = 2.
Proof.
  assert (Hi : initialized playing)
    by (unfold initialized; vm_compute; repeat split; discriminate).
  assert (H : entry_fails (quietHost 3500) SINGLE_PLAYER = false)
    by (vm_compute; reflexivity).
  pose proof (start_over_live_session_disposes_nothing (quietHost 3500)
                playing (mkRenderer 7)
                (mkWorld 8 worldSize chunkSize None "default" (Some 4))
                None (Some 5%Z) "default" Hi eq_refl eq_refl H) as W.
  cbv zeta in W. destruct W as (_ & _ & Wt).
  split; [exact Hi | split; [exact H |]].
  rewrite Wt. vm_compute. reflexivity.
Defined.

(** X13.  Entering multiplayer, first half (lines 176-186 and 244-251).
    [setState(MULTIPLAYER)] sets the mode, builds the renderer and asks
    the multiplayer manager to connect, with no address; until the
    connection settles there is no new world or player and no frame
    pass. *)
Theorem multiplayer_entry_awaits_connection (h : Host) (s : Game) :
  initialized s -> ctor_throws h CRenderer = false ->
  let s' := exec (setState h MULTIPLAYER) s in
  state s' = MULTIPLAYER /\ renderer s' <> None /\
  world s' = world s /\ player s' = player s /\
  firstn 1 (trace s') = [MpConnect None] /\
  tasks s' ConnectAwait = S (tasks s ConnectAwait) /\
  tasks s' FrameCallback = tasks s FrameCallback /\
  isGameRunning s' = isGameRunning s.
Proof.
  intros Hi H. initial s Hi.
  match goal with |- let s' := ?X in @?P s' => change (Post P X) end.
  revert H. destruct h. cbn [ctor_throws].
  crunch; finish.
Qed.

Lemma multiplayer_entry_awaits_connection_witness :
  initialized atMenu /\ ctor_throws (quietHost 3000) CRenderer = false /\
  state (exec (setState (quietHost 3000) MULTIPLAYER) atMenu) = MULTIPLAYER.
Proof.
  assert (Hi : initialized atMenu)
    by (unfold initialized; vm_compute; repeat split; discriminate).
  split; [exact Hi | split; [reflexivity |]].
  exact (proj1 (multiplayer_entry_awaits_connection (quietHost 3000) atMenu
                  Hi eq_refl)).
Defined.

(** X14.  Entering multiplayer, second half (lines 253-272).  When the
    connection resolves and no constructor throws, the player is built at
    the server's spawn point, then a world of type 'multiplayer' with a
    null seed, wired to the player and to the multiplayer manager, and the
    frame loop starts.  The continuation does not look at the mode or at
    the renderer: both are left as they are by then, even if the user
    went back to the menu while the connection was pending. *)
Theorem multiplayer_entry_completes (h : Host) (s : Game) :
  initialized s ->
  ctor_throws h CPlayer = false -> ctor_throws h CWorld = false ->
  let s' := exec (startMultiplayer_resume h true) s in
  state s' = state s /\ renderer s' = renderer s /\
  isGameRunning s' = true /\
  tasks s' FrameCallback = S (tasks s FrameCallback) /\
  exists w p,
    world s' = Some w /\ player s' = Some p /\
    (w_seed w = None /\ w_type w = "multiplayer"%string /\
     p_pos p = mp_spawn h) /\
    In (WorldSetPlayer w (Some p)) (trace s') /\
    In (WorldSetMultiplayer w (multiplayer s)) (trace s').
Proof.
  intros Hi Hp Hw. initial s Hi.
  match goal with |- let s' := ?X in @?P s' => change (Post P X) end.
  revert Hp Hw. destruct h. cbn [ctor_throws].
  crunch; traced.
Qed.

Lemma multiplayer_entry_completes_witness :
  initialized atMenu /\
  state (exec (startMultiplayer_resume (quietHost 3100) true) atMenu) = MENU.
Proof.
  assert (Hi : initialized atMenu)
    by (unfold initialized; vm_compute; repeat split; discriminate).
  assert (Hm : state atMenu = MENU) by (vm_compute; reflexivity).
  split; [exact Hi |].
  rewrite (proj1 (multiplayer_entry_completes (quietHost 3100) atMenu
                    Hi eq_refl eq_refl)).
  exact Hm.
Defined.

(** X15.  Quit, then start again (lines 176-197, 317-349 and 351-394).
    The teardown does not cancel a queued frame callback, and the new
    session queues its own: after [setState(MENU)] and
    [setState(SINGLE_PLAYER)] there is one callback more than before the
    quit, so a session that was running leaves two frame loops behind. *)
Theorem quit_then_restart_accumulates_loops (h1 h2 : Host) (s : Game) :
  initialized s -> entry_fails h2 SINGLE_PLAYER = false ->
  let s' := exec (setState h2 SINGLE_PLAYER) (exec (setState h1 MENU) s) in
  state s' = SINGLE_PLAYER /\ isGameRunning s' = true /\
  tasks s' FrameCallback = S (tasks s FrameCallback).
Proof.
  intros Hi H. initial s Hi.
  match goal with |- let s' := ?X in @?P s' => change (Post P X) end.
  revert H. destruct h1, h2. cbn [entry_fails ctor_throws].
  crunch; finish.
Qed.

Lemma quit_then_restart_accumulates_loops_witness :
  initialized playing /\
  entry_fails (quietHost 6000) SINGLE_PLAYER = false /\
  tasks (exec (setState (quietHost 6000) SINGLE_PLAYER)
           (exec (setState (quietHost 5000) MENU) playing)) FrameCallback = 2.
Proof.
  assert (Hi : initialized playing)
    by (unfold initialized; vm_compute; repeat split; discriminate).
  assert (H : entry_fails (quietHost 6000) SINGLE_PLAYER = false)
    by (vm_compute; reflexivity).
  split; [exact Hi | split; [exact H |]].
  rewrite (proj2 (proj2 (quit_then_restart_accumulates_loops (quietHost 5000)
                           (quietHost 6000) playing Hi H))).
  vm_compute. reflexivity.
Defined.

Lemma fps_updates_bounded_by_time_witness :
  settings playing <> None /\ ui playing <> None /\
  (1000 * Z.of_nat
            (count is_UpdateFPS
               (trace (passes [quietHost 3500; quietHost 4100; quietHost 4200]
                         playing))
             - count is_UpdateFPS (trace playing))
   <= fpsUpdateTime
        (passes [quietHost 3500; quietHost 4100; quietHost 4200] playing)
      - fpsUpdateTime playing)%Z.
Proof.
  assert (Hs : settings playing <> None) by (vm_compute; discriminate).
  assert (Hu : ui playing <> None) by (vm_compute; discriminate).
  split; [exact Hs | split; [exact Hu |]].
  exact (proj2 (fps_updates_bounded_by_time
                  [quietHost 3500; quietHost 4100; quietHost 4200]
                  playing Hs Hu)).
Defined.

Lemma worker_message_delivered_witness :
  world playing
  = Some (mkWorld 8 worldSize chunkSize None "default" (Some 4)) /\
  onWorkerMessage Physics (mkMsg (channel_tag Physics) 11) playing
  = (Ok tt,
     set_trace
       (WorldReceivePhysicsUpdate
          (mkWorld 8 worldSize chunkSize None "default" (Some 4)) 11
          :: trace playing) playing).
Proof.
  assert (Hw : world playing
               = Some (mkWorld 8 worldSize chunkSize None "default" (Some 4)))
    by (vm_compute; reflexivity).
  split; [exact Hw |].
  exact (worker_message_delivered Physics 11 _ playing Hw).
Defined.

Lemma worker_message_other_tag_ignored_witness :
  String.eqb "physicsUpdate" (channel_tag WorldGeneration) = false /\
  onWorkerMessage WorldGeneration (mkMsg "physicsUpdate" 11) atMenu
  = (Ok tt, atMenu).
Proof.
  split; [reflexivity |].
  exact (worker_message_other_tag_ignored WorldGeneration
           (mkMsg "physicsUpdate" 11) atMenu eq_refl).
Defined.

Lemma startup_creates_each_worker_witness :
  (forall c, ctor_throws (quietHost 0) c = false) /\
  count (is_NewWorker Pathfinding)
    (trace (step (quietHost 10) (SettingsSettled true) (newGame (quietHost 0))))
  = 1.
Proof.
  split; [intros c; reflexivity |].
  exact (proj2 (proj2 (proj2 (startup_creates_each_worker (quietHost 0)
           (quietHost 10) Pathfinding (fun c => eq_refl) (fun c => eq_refl))))).
Defined.

Lemma initialized_steps_witness :
  initialized atMenu /\
  initialized
    (steps [(quietHost 3000, CallSetState MULTIPLAYER);
            (quietHost 3100, ConnectSettled false);
            (quietHost 3200, CallLoadGame 3);
            (quietHost 3300, LoadSettled LoadRejected)] atMenu).
Proof.
  assert (Hi : initialized atMenu)
    by (unfold initialized; vm_compute; repeat split; discriminate).
  split; [exact Hi |].
  exact (initialized_steps
           [(quietHost 3000, CallSetState MULTIPLAYER);
            (quietHost 3100, ConnectSettled false);
            (quietHost 3200, CallLoadGame 3);
            (quietHost 3300, LoadSettled LoadRejected)] atMenu Hi).
Defined.
